(** * MediaPlayer backend: the video service and its player

    A shallow embedding of [backend/app/services/media_player.py] and
    [backend/app/services/video_service.py], and the properties of the
    HTTP surface they implement.

    Layout:
    - [PyFloat]: Python's [float] (IEEE 754 binary64) with the operators the
      player uses, on the Standard Library's [spec_float];
    - [Py]: Python values, dictionaries, exceptions, integer formatting;
    - the state-and-exception monad the methods run in;
    - [Host]: what the services call outside the repository
      ([os.path.exists], [cv2.VideoCapture]);
    - [MediaPlayer] and [VideoService]: the two classes, method by method;
    - [Worker]: the player's worker loop, pass by pass; [Routes], the
      router's table and sessions of calls; [Settings] and the address
      [main.py] binds;
    - runs: the calls a process serves and the passes its worker makes,
      in the order they take place;
    - the theorems.

    What is outside the embedding:
    - interleavings of the worker thread with the requests finer than a
      pass of the worker's loop: the methods and the worker's loop are each
      embedded as the sequential code they are, on any state the other may
      have left, and a run takes each call and each pass whole;
    - the windowing and threading calls ([cv2.destroyAllWindows],
      [Thread.start], [Thread.join]), taken to return without touching a
      field of the player;
    - the HTTP layer: a route hands the service's result or exception to
      FastAPI as it is. *)

From Stdlib Require Import ZArith List String Ascii Bool DecimalString.
From Stdlib Require Import SpecFloat.
From Stdlib Require Import Lia.
Import ListNotations.

Open Scope string_scope.
Open Scope list_scope.
Open Scope Z_scope.

(** ** Python floats *)

Module PyFloat.

(** CPython's [float] is the C [double]: binary64. *)
Definition prec : Z := 53.
Definition emax : Z := 1024.

Definition float : Set := spec_float.

Definition zero : float := S754_zero false.

(** The float nearest to an integer (round half to even); an integer of
    magnitude beyond the largest double comes out as an infinity. *)
Definition of_Z (n : Z) : float := binary_normalize prec emax n 0 false.

(** The literal [0.5]. *)
Definition half : float := S754_finite false 4503599627370496 (-53).

Definition eqb : float -> float -> bool := SFeqb.
Definition ltb : float -> float -> bool := SFltb.
Definition leb : float -> float -> bool := SFleb.

Definition add : float -> float -> float := SFadd prec emax.
Definition sub : float -> float -> float := SFsub prec emax.
Definition mul : float -> float -> float := SFmul prec emax.
Definition div : float -> float -> float := SFdiv prec emax.

Definition is_inf (x : float) : bool :=
  match x with S754_infinity _ => true | _ => false end.

(** C truth value of a double: [if (x)] is [x != 0.0], true of a NaN. *)
Definition nonzero (x : float) : bool := negb (eqb x zero).

(** The sign bit; [spec_float] keeps none for a NaN. *)
Definition signbit (x : float) : bool :=
  match x with
  | S754_zero s | S754_infinity s | S754_finite s _ _ => s
  | S754_nan => false
  end.

(** [copysign(0.0, w)]. *)
Definition copysign_zero (w : float) : float := S754_zero (signbit w).

(** C [fmod]: the exact remainder of the truncated quotient, with the sign
    of the dividend. *)
Definition fmod (x y : float) : float :=
  match x, y with
  | S754_nan, _ | _, S754_nan => S754_nan
  | S754_infinity _, _ => S754_nan
  | _, S754_zero _ => S754_nan
  | S754_zero _, _ => x
  | S754_finite _ _ _, S754_infinity _ => x
  | S754_finite sx mx ex, S754_finite _ my ey =>
      let e := Z.min ex ey in
      let X := Z.shiftl (Zpos mx) (ex - e) in
      let Y := Z.shiftl (Zpos my) (ey - e) in
      binary_normalize prec emax (cond_Zopp sx (X mod Y)) e sx
  end.

(** C [floor]. *)
Definition floor (x : float) : float :=
  match x with
  | S754_finite s m e =>
      if 0 <=? e then x
      else binary_normalize prec emax
             (Z.shiftr (cond_Zopp s (Zpos m)) (- e)) 0 s
  | _ => x
  end.

(** The integer part of a finite float, towards zero. *)
Definition trunc (s : bool) (m : positive) (e : Z) : Z :=
  cond_Zopp s (if 0 <=? e then Z.shiftl (Zpos m) e
               else Z.shiftr (Zpos m) (- e)).

(** [_float_div_mod] of [Objects/floatobject.c], for a divisor that is
    not zero: the pair (floor quotient, remainder). *)
Definition div_mod (vx wx : float) : float * float :=
  let mod0 := fmod vx wx in
  let div0 := div (sub vx mod0) wx in
  let '(md, dv) :=
    if nonzero mod0 then
      if negb (Bool.eqb (ltb wx zero) (ltb mod0 zero))
      then (add mod0 wx, sub div0 (of_Z 1))
      else (mod0, div0)
    else (copysign_zero wx, div0) in
  let floordiv :=
    if nonzero dv then
      let fl := floor dv in
      if ltb half (sub dv fl) then add fl (of_Z 1) else fl
    else copysign_zero (div vx wx) in
  (floordiv, md).

(** [float_rem] of [Objects/floatobject.c], for a divisor that is not
    zero. *)
Definition rem (vx wx : float) : float :=
  let mod0 := fmod vx wx in
  if nonzero mod0 then
    if negb (Bool.eqb (ltb wx zero) (ltb mod0 zero))
    then add mod0 wx else mod0
  else copysign_zero wx.

(** *** [repr] of a float

    CPython prints the shortest decimal string that reads back as the same
    double (and, among those, the one nearest to it), in fixed notation
    when the decimal point falls within [-4 < decpt <= 16] and in
    scientific notation otherwise. *)

Definition digits_of (n : Z) : string := NilZero.string_of_int (Z.to_int n).

Fixpoint zeros (n : nat) : string :=
  match n with O => "" | S k => String "0" (zeros k) end.

(** For the positive float [m * 2^e] and a power of ten [10^k]: the
    multiple [d * 10^k] nearest to it among those that round back to it,
    when there is one.  Numbers are scaled by [4 * 2^-e]: the float is
    [4m], its rounding interval is [[4m - lo, 4m + 2]], closed exactly
    when [m] is even. *)
Definition candidate (m : positive) (e k : Z) : option Z :=
  let E := e - 2 in
  let a := 2 ^ Z.max E 0 * 10 ^ Z.max (- k) 0 in
  let u := 2 ^ Z.max (- E) 0 * 10 ^ Z.max k 0 in
  let boundary := (Zpos m =? 2 ^ (prec - 1)) && (3 - emax - prec <? e) in
  let x := 4 * Zpos m * a in
  let lo := (4 * Zpos m - (if boundary then 1 else 2)) * a in
  let hi := (4 * Zpos m + 2) * a in
  let inside c :=
    if Z.even (Zpos m) then (lo <=? c) && (c <=? hi)
    else (lo <? c) && (c <? hi) in
  let d0 := x / u in
  let d1 := d0 + 1 in
  let ok0 := (0 <? d0) && inside (d0 * u) in
  let ok1 := inside (d1 * u) in
  match ok0, ok1 with
  | true, true =>
      match Z.compare (x - d0 * u) (d1 * u - x) with
      | Lt => Some d0
      | Gt => Some d1
      | Eq => Some (if Z.even d0 then d0 else d1)
      end
  | true, false => Some d0
  | false, true => Some d1
  | false, false => None
  end.

(** The shortest digits: the largest [k] that has a candidate, searched
    downwards.  The float is itself a multiple of [10^k] once [k <= e], so
    the search ends before the fuel [repr_pos] gives it does. *)
Fixpoint shortest (fuel : nat) (m : positive) (e k : Z) : Z * Z :=
  match candidate m e k with
  | Some d => (d, k)
  | None =>
      match fuel with
      | O => (Zpos m, e)
      | S fuel' => shortest fuel' m e (k - 1)
      end
  end.

Definition repr_pos (m : positive) (e : Z) : string :=
  let bits := Zpos (digits2_pos m) + e in
  let k0 := Z.max 1 (bits * 1233 / 4096 + 2) in
  let '(d, k) := shortest (Z.to_nat (k0 + 1200)) m e k0 in
  let D := digits_of d in
  let n := Z.of_nat (String.length D) in
  let decpt := n + k in
  if (-4 <? decpt) && (decpt <=? 16) then
    if decpt <=? 0 then "0." ++ zeros (Z.to_nat (- decpt)) ++ D
    else if n <=? decpt then D ++ zeros (Z.to_nat (decpt - n)) ++ ".0"
    else substring 0 (Z.to_nat decpt) D ++ "."
         ++ substring (Z.to_nat decpt) (Z.to_nat (n - decpt)) D
  else
    let ex := decpt - 1 in
    substring 0 1 D
    ++ (if 1 <? n then "." ++ substring 1 (Z.to_nat (n - 1)) D else "")
    ++ "e" ++ (if ex <? 0 then "-" else "+")
    ++ (if Z.abs ex <? 10 then "0" else "") ++ digits_of (Z.abs ex).

Definition repr (x : float) : string :=
  match x with
  | S754_nan => "nan"
  | S754_infinity s => if s then "-inf" else "inf"
  | S754_zero s => if s then "-0.0" else "0.0"
  | S754_finite s m e => (if s then "-" else "") ++ repr_pos m e
  end.

End PyFloat.

(** ** Python values, dictionaries and exceptions *)

Module Py.

Definition float : Set := PyFloat.float.

(** The values that appear in the service's JSON responses. *)
Inductive value : Set :=
| VBool (b : bool)
| VInt (n : Z)
| VFloat (x : float)
| VStr (s : string).

(** [str(v)], as an f-string prints it. *)
Definition str (v : value) : string :=
  match v with
  | VBool b => if b then "True" else "False"
  | VInt n => PyFloat.digits_of n
  | VFloat x => PyFloat.repr x
  | VStr s => s
  end.

(** [str] of a list of floats: ["[0.5, 1.0]"]. *)
Fixpoint join_reprs (l : list float) : string :=
  match l with
  | [] => ""
  | [x] => PyFloat.repr x
  | x :: rest => PyFloat.repr x ++ ", " ++ join_reprs rest
  end.

Definition str_float_list (l : list float) : string :=
  "[" ++ join_reprs l ++ "]".

(** A [dict] with string keys, in insertion order. *)
Definition dict : Set := list (string * value).

Fixpoint getitem (d : dict) (k : string) : option value :=
  match d with
  | [] => None
  | (k', v) :: rest => if String.eqb k' k then Some v else getitem rest k
  end.

(** [d[k] = v]: replaces the value of a present key, appends a new one. *)
Fixpoint setitem (d : dict) (k : string) (v : value) : dict :=
  match d with
  | [] => [(k, v)]
  | (k', v') :: rest =>
      if String.eqb k' k then (k', v) :: rest
      else (k', v') :: setitem rest k v
  end.

(** The exceptions the program can meet.  All of them derive from
    [Exception]; [HTTPException] is FastAPI's.  [OtherError] stands for an
    exception of any other class, derived from [Exception] and from none of
    the classes named here, with the name of its class ([PermissionError],
    [RecursionError], ...). *)
Inductive exn : Set :=
| ValueError (msg : string)
| OverflowError (msg : string)
| ZeroDivisionError (msg : string)
| AttributeError (msg : string)
| HTTPException (status_code : Z) (detail : value)
| OtherError (class_name : string) (msg : string).

(** [str(e)].  Starlette's [HTTPException.__str__] prints
    ["{status_code}: {detail}"]. *)
Definition str_exn (e : exn) : string :=
  match e with
  | ValueError msg | OverflowError msg
  | ZeroDivisionError msg | AttributeError msg | OtherError _ msg => msg
  | HTTPException code detail => PyFloat.digits_of code ++ ": " ++ str detail
  end.

(** [except Exception] and [except ValueError]. *)
Definition is_Exception (e : exn) : bool := true.

Definition is_ValueError (e : exn) : bool :=
  match e with ValueError _ => true | _ => false end.

(** The result of evaluating an expression: a value or a raised
    exception. *)
Inductive outcome (A : Type) : Type :=
| Returns (a : A)
| Raises (e : exn).
Arguments Returns {A} a.
Arguments Raises {A} e.

(** Conversion of an [int] operand of a float operator
    ([PyLong_AsDouble]). *)
Definition float_of_int (n : Z) : outcome float :=
  let x := PyFloat.of_Z n in
  if PyFloat.is_inf x
  then Raises (OverflowError "int too large to convert to float")
  else Returns x.

(** [int(x)] of a float. *)
Definition int_of_float (x : float) : outcome Z :=
  match x with
  | S754_nan => Raises (ValueError "cannot convert float NaN to integer")
  | S754_infinity _ =>
      Raises (OverflowError "cannot convert float infinity to integer")
  | S754_zero _ => Returns 0
  | S754_finite s m e => Returns (PyFloat.trunc s m e)
  end.

(** [a / b] on floats. *)
Definition truediv (a b : float) : outcome float :=
  if PyFloat.eqb b PyFloat.zero
  then Raises (ZeroDivisionError "float division by zero")
  else Returns (PyFloat.div a b).

(** [a // b] on floats. *)
Definition floordiv (a b : float) : outcome float :=
  if PyFloat.eqb b PyFloat.zero
  then Raises (ZeroDivisionError "float floor division by zero")
  else Returns (fst (PyFloat.div_mod a b)).

(** [a % b] on floats. *)
Definition mod_ (a b : float) : outcome float :=
  if PyFloat.eqb b PyFloat.zero
  then Raises (ZeroDivisionError "float modulo")
  else Returns (PyFloat.rem a b).

(** [f"{n:0{width}d}"]: decimal, zero-filled after the sign up to
    [width] characters. *)
Definition format_0d (width : nat) (n : Z) : string :=
  let sign := if n <? 0 then "-" else "" in
  let ds := PyFloat.digits_of (Z.abs n) in
  sign ++ PyFloat.zeros (width - String.length sign - String.length ds) ++ ds.

End Py.

Import Py.

(** ** Methods: state and exceptions

    A method is run on the object's state and returns its outcome together
    with the state it leaves, also when it raises: assignments made before
    the [raise] stay. *)

Definition M (S A : Type) : Type := S -> outcome A * S.

Definition ret {S A} (a : A) : M S A := fun s => (Returns a, s).

Definition raise {S A} (e : exn) : M S A := fun s => (Raises e, s).

Definition bind {S A B} (m : M S A) (k : A -> M S B) : M S B :=
  fun s =>
    match m s with
    | (Returns a, s') => k a s'
    | (Raises e, s') => (Raises e, s')
    end.

Definition get {S} : M S S := fun s => (Returns s, s).

Definition modify {S} (f : S -> S) : M S unit := fun s => (Returns tt, f s).

(** An expression that reads nothing and changes nothing. *)
Definition eval {S A} (r : outcome A) : M S A := fun s => (r, s).

(** [try: m  except <class> as e: handler e]. *)
Definition try_except {S A} (m : M S A) (catches : exn -> bool)
    (handler : exn -> M S A) : M S A :=
  fun s =>
    match m s with
    | (Raises e, s') => if catches e then handler e s' else (Raises e, s')
    | done => done
    end.

Declare Scope method_scope.
Delimit Scope method_scope with method.
Notation "x <- m ;; k" := (bind m (fun x => k))
  (at level 61, m at next level, right associativity) : method_scope.
Notation "m ;; k" := (bind m (fun _ => k))
  (at level 61, right associativity) : method_scope.
Open Scope method_scope.

(** ** The host: file system and video library *)

(** A [cv2.VideoCapture] object: whether it is open, and the properties the
    player reads and writes.  [get] returns a C [double] for every
    property. *)
Record VideoCapture : Set := {
  isOpened : bool;
  CAP_PROP_POS_FRAMES : float;
  CAP_PROP_FPS : float;
  CAP_PROP_FRAME_COUNT : float
}.

Definition release (c : VideoCapture) : VideoCapture :=
  {| isOpened := false;
     CAP_PROP_POS_FRAMES := CAP_PROP_POS_FRAMES c;
     CAP_PROP_FPS := CAP_PROP_FPS c;
     CAP_PROP_FRAME_COUNT := CAP_PROP_FRAME_COUNT c |}.

(** [cap.set(cv2.CAP_PROP_POS_FRAMES, v)]. *)
Definition set_pos_frames (v : float) (c : VideoCapture) : VideoCapture :=
  {| isOpened := isOpened c;
     CAP_PROP_POS_FRAMES := v;
     CAP_PROP_FPS := CAP_PROP_FPS c;
     CAP_PROP_FRAME_COUNT := CAP_PROP_FRAME_COUNT c |}.

(** What a call finds outside the process: [os.path.exists] and the capture
    [cv2.VideoCapture(path)] hands back. *)
Record Host : Set := {
  os_path_exists : string -> bool;
  cv2_VideoCapture : string -> VideoCapture
}.

(** A [threading.Thread] handle.  The worker it runs ([_play_video]: decode,
    overlay, show, sleep, count the frame) executes concurrently with the
    requests and is not part of the methods below; [join] only waits for
    it. *)
Record Thread : Set := {
  daemon : bool;
  started : bool
}.

(** ** [class MediaPlayer] *)

Module MediaPlayer.

Record state : Set := {
  video_path : string;
  cap : option VideoCapture;
  is_playing : bool;
  is_paused : bool;
  current_frame : Z;
  total_frames : Z;
  fps : float;
  speed : float;
  play_thread : option Thread
}.

(** Field assignments. *)
Definition set_cap (v : option VideoCapture) (p : state) : state :=
  {| video_path := video_path p; cap := v; is_playing := is_playing p;
     is_paused := is_paused p; current_frame := current_frame p;
     total_frames := total_frames p; fps := fps p; speed := speed p;
     play_thread := play_thread p |}.

Definition set_is_playing (v : bool) (p : state) : state :=
  {| video_path := video_path p; cap := cap p; is_playing := v;
     is_paused := is_paused p; current_frame := current_frame p;
     total_frames := total_frames p; fps := fps p; speed := speed p;
     play_thread := play_thread p |}.

Definition set_is_paused (v : bool) (p : state) : state :=
  {| video_path := video_path p; cap := cap p; is_playing := is_playing p;
     is_paused := v; current_frame := current_frame p;
     total_frames := total_frames p; fps := fps p; speed := speed p;
     play_thread := play_thread p |}.

Definition set_current_frame (v : Z) (p : state) : state :=
  {| video_path := video_path p; cap := cap p; is_playing := is_playing p;
     is_paused := is_paused p; current_frame := v;
     total_frames := total_frames p; fps := fps p; speed := speed p;
     play_thread := play_thread p |}.

Definition set_total_frames (v : Z) (p : state) : state :=
  {| video_path := video_path p; cap := cap p; is_playing := is_playing p;
     is_paused := is_paused p; current_frame := current_frame p;
     total_frames := v; fps := fps p; speed := speed p;
     play_thread := play_thread p |}.

Definition set_fps (v : float) (p : state) : state :=
  {| video_path := video_path p; cap := cap p; is_playing := is_playing p;
     is_paused := is_paused p; current_frame := current_frame p;
     total_frames := total_frames p; fps := v; speed := speed p;
     play_thread := play_thread p |}.

Definition assign_speed (v : float) (p : state) : state :=
  {| video_path := video_path p; cap := cap p; is_playing := is_playing p;
     is_paused := is_paused p; current_frame := current_frame p;
     total_frames := total_frames p; fps := fps p; speed := v;
     play_thread := play_thread p |}.

Definition set_play_thread (v : option Thread) (p : state) : state :=
  {| video_path := video_path p; cap := cap p; is_playing := is_playing p;
     is_paused := is_paused p; current_frame := current_frame p;
     total_frames := total_frames p; fps := fps p; speed := speed p;
     play_thread := v |}.

(** [VALID_SPEEDS = [0.5, 1.0, 2.0, 4.0]]. *)
Definition VALID_SPEEDS : list float :=
  [ PyFloat.half; PyFloat.of_Z 1; PyFloat.of_Z 2; PyFloat.of_Z 4 ].

(** [speed in self.VALID_SPEEDS]: some element compares equal. *)
Definition contains (l : list float) (x : float) : bool :=
  existsb (fun item => PyFloat.eqb item x) l.

(** [_load_video]. *)
Definition _load_video (host : Host) : M state unit :=
  self <- get ;;
  (match cap self with
   | Some c => modify (set_cap (Some (release c)))
   | None => ret tt
   end) ;;
  self <- get ;;
  let c := cv2_VideoCapture host (video_path self) in
  modify (set_cap (Some c)) ;;
  if negb (isOpened c) then
    raise (ValueError ("Could not open video file: " ++ video_path self))
  else
    n <- eval (int_of_float (CAP_PROP_FRAME_COUNT c)) ;;
    modify (set_total_frames n) ;;
    modify (set_fps (CAP_PROP_FPS c)) ;;
    self <- get ;;
    if PyFloat.leb (fps self) (PyFloat.of_Z 0)
    then modify (set_fps (PyFloat.of_Z 30))
    else ret tt.

(** The assignments of [__init__] before it calls [_load_video]. *)
Definition fresh (video_path : string) : state :=
  {| video_path := video_path;
     cap := None;
     is_playing := false;
     is_paused := false;
     current_frame := 0;
     total_frames := 0;
     fps := PyFloat.of_Z 30;
     speed := PyFloat.of_Z 1;
     play_thread := None |}.

(** [__init__]: the constructor yields the object only when [_load_video]
    returns. *)
Definition __init__ (host : Host) (video_path : string) : outcome state :=
  match _load_video host (fresh video_path) with
  | (Returns _, self) => Returns self
  | (Raises e, _) => Raises e
  end.

(** [set_speed]. *)
Definition set_speed (speed : float) : M state unit :=
  if contains VALID_SPEEDS speed
  then modify (assign_speed speed)
  else raise (ValueError ("Invalid speed. Must be one of: "
                          ++ str_float_list VALID_SPEEDS)).

(** [play]. *)
Definition play (speed : option float) : M state unit :=
  (match speed with
   | Some s => set_speed s
   | None => ret tt
   end) ;;
  self <- get ;;
  if negb (is_playing self) then
    modify (set_is_playing true) ;;
    modify (set_is_paused false) ;;
    modify (set_play_thread (Some {| daemon := false; started := false |})) ;;
    modify (set_play_thread (Some {| daemon := true; started := false |})) ;;
    modify (set_play_thread (Some {| daemon := true; started := true |}))
  else
    modify (set_is_paused false).

(** [pause]. *)
Definition pause : M state unit :=
  self <- get ;;
  if is_playing self then modify (set_is_paused true) else ret tt.

(** [stop].  [join] and [cv2.destroyAllWindows] are taken to return; they
    assign no field. *)
Definition stop : M state unit :=
  modify (set_is_playing false) ;;
  modify (set_is_paused false).

(** [reset]. *)
Definition reset : M state unit :=
  stop ;;
  modify (set_current_frame 0) ;;
  self <- get ;;
  match cap self with
  | Some c => modify (set_cap (Some (set_pos_frames (PyFloat.of_Z 0) c)))
  | None => ret tt
  end.

(** [_get_timestamp]: [MM:SS:mmm]. *)
Definition _get_timestamp : M state string :=
  self <- get ;;
  if PyFloat.ltb (PyFloat.of_Z 0) (fps self) then
    frame <- eval (float_of_int (current_frame self)) ;;
    current_time <- eval (truediv frame (fps self)) ;;
    q <- eval (floordiv current_time (PyFloat.of_Z 60)) ;;
    minutes <- eval (int_of_float q) ;;
    r <- eval (mod_ current_time (PyFloat.of_Z 60)) ;;
    seconds <- eval (int_of_float r) ;;
    f <- eval (mod_ current_time (PyFloat.of_Z 1)) ;;
    milliseconds <- eval (int_of_float (PyFloat.mul f (PyFloat.of_Z 1000))) ;;
    ret (format_0d 2 minutes ++ ":" ++ format_0d 2 seconds ++ ":"
         ++ format_0d 3 milliseconds)%string
  else ret "00:00:000".

(** [get_status]. *)
Definition get_status : M state dict :=
  self <- get ;;
  timestamp <- _get_timestamp ;;
  ret [ ("is_playing", VBool (is_playing self));
        ("is_paused", VBool (is_paused self));
        ("current_frame", VInt (current_frame self));
        ("total_frames", VInt (total_frames self));
        ("speed", VFloat (speed self));
        ("timestamp", VStr timestamp);
        ("video_path", VStr (video_path self));
        ("fps", VFloat (fps self)) ].

End MediaPlayer.

(** ** [class VideoService] *)

Module VideoService.

Record state : Set := {
  media_player : option MediaPlayer.state
}.

(** [__init__]. *)
Definition __init__ : state := {| media_player := None |}.

(** A method call on [self.media_player]: run on the player object, which
    the service keeps referring to.  On [None] Python raises
    [AttributeError]. *)
Definition on_player {A} (attr : string) (m : M MediaPlayer.state A)
    : M state A :=
  fun self =>
    match media_player self with
    | Some p => let (r, p') := m p in (r, {| media_player := Some p' |})
    | None =>
        (Raises (AttributeError ("'NoneType' object has no attribute '"
                                 ++ attr ++ "'")), self)
    end.

(** [if not self.media_player: raise HTTPException(400, ...)]: an instance
    of [MediaPlayer] is always true, so the test is [is None]. *)
Definition require_loaded : M state unit :=
  self <- get ;;
  match media_player self with
  | None => raise (HTTPException 400 (VStr "No video loaded"))
  | Some _ => ret tt
  end.

Definition bad_request {A} (e : exn) : M state A :=
  raise (HTTPException 400 (VStr (str_exn e))).

(** [load_video]. *)
Definition load_video (host : Host) (video_path : string) : M state dict :=
  try_except
    (if negb (os_path_exists host video_path) then
       raise (HTTPException 404 (VStr "Video file not found"))
     else
       player <- eval (MediaPlayer.__init__ host video_path) ;;
       modify (fun _ => {| media_player := Some player |}) ;;
       ret [ ("message", VStr "Video loaded successfully");
             ("path", VStr video_path) ])
    is_Exception bad_request.

(** [play_video]. *)
Definition play_video (speed : option float) : M state dict :=
  require_loaded ;;
  try_except
    (on_player "play" (MediaPlayer.play speed) ;;
     s <- on_player "speed" (self <- get ;; ret (MediaPlayer.speed self)) ;;
     ret [ ("message", VStr "Video playback started");
           ("speed", VFloat s) ])
    is_Exception bad_request.

(** [pause_video]. *)
Definition pause_video : M state dict :=
  require_loaded ;;
  on_player "pause" MediaPlayer.pause ;;
  ret [ ("message", VStr "Video playback paused") ].

(** [stop_video]. *)
Definition stop_video : M state dict :=
  require_loaded ;;
  on_player "stop" MediaPlayer.stop ;;
  ret [ ("message", VStr "Video playback stopped") ].

(** [reset_video]. *)
Definition reset_video : M state dict :=
  require_loaded ;;
  on_player "reset" MediaPlayer.reset ;;
  ret [ ("message", VStr "Video reset to beginning") ].

(** [set_speed]. *)
Definition set_speed (speed : float) : M state dict :=
  require_loaded ;;
  try_except
    (on_player "set_speed" (MediaPlayer.set_speed speed) ;;
     ret [ ("message", VStr ("Speed set to " ++ PyFloat.repr speed ++ "x"));
           ("speed", VFloat speed) ])
    is_ValueError bad_request.

(** [get_status]. *)
Definition get_status : M state dict :=
  self <- get ;;
  match media_player self with
  | None => ret [ ("loaded", VBool false) ]
  | Some _ =>
      status <- on_player "get_status" MediaPlayer.get_status ;;
      ret (setitem status "loaded" (VBool true))
  end.

End VideoService.

(** ** Example objects

    A host with one playable file, one file that is no video, and nothing
    else; used where a statement is run on concrete data. *)

Definition example_capture (opened : bool) (frames rate : float)
    : VideoCapture :=
  {| isOpened := opened;
     CAP_PROP_POS_FRAMES := PyFloat.of_Z 0;
     CAP_PROP_FPS := rate;
     CAP_PROP_FRAME_COUNT := frames |}.

Definition example_host : Host :=
  {| os_path_exists := fun p =>
       String.eqb p "clip.mp4" || String.eqb p "notes.txt";
     cv2_VideoCapture := fun p =>
       example_capture (String.eqb p "clip.mp4")
         (PyFloat.of_Z 900) (PyFloat.of_Z 25) |}.

(** The player [MediaPlayer("clip.mp4")] builds on [example_host]. *)
Definition example_player : MediaPlayer.state :=
  {| MediaPlayer.video_path := "clip.mp4";
     MediaPlayer.cap :=
       Some (example_capture true (PyFloat.of_Z 900) (PyFloat.of_Z 25));
     MediaPlayer.is_playing := false;
     MediaPlayer.is_paused := false;
     MediaPlayer.current_frame := 0;
     MediaPlayer.total_frames := 900;
     MediaPlayer.fps := PyFloat.of_Z 25;
     MediaPlayer.speed := PyFloat.of_Z 1;
     MediaPlayer.play_thread := None |}.

Definition example_service : VideoService.state :=
  {| VideoService.media_player := Some example_player |}.

(** The literal [3.0], a speed outside [VALID_SPEEDS]. *)
Definition three : float := PyFloat.of_Z 3.

(** ** Vocabulary of the statements, and the states they are run on *)

(** The literals [0.5], [1.0], [2.0] and [4.0]. *)
Definition speed_0_5 : float := PyFloat.half.
Definition speed_1_0 : float := PyFloat.of_Z 1.
Definition speed_2_0 : float := PyFloat.of_Z 2.
Definition speed_4_0 : float := PyFloat.of_Z 4.

Definition allowed_speed (s : float) : Prop :=
  s = speed_0_5 \/ s = speed_1_0 \/ s = speed_2_0 \/ s = speed_4_0.

(** A paused player is a playing player. *)
Definition paused_implies_playing (p : MediaPlayer.state) : Prop :=
  MediaPlayer.is_paused p = true -> MediaPlayer.is_playing p = true.

(** A playing player that has been paused: both flags set. *)
Definition paused_player : MediaPlayer.state :=
  snd (MediaPlayer.pause (snd (MediaPlayer.play None example_player))).

(** The player's status dictionary once its timestamp is known. *)
Definition status_fields (p : MediaPlayer.state) (timestamp : string) : dict :=
  [ ("is_playing", VBool (MediaPlayer.is_playing p));
    ("is_paused", VBool (MediaPlayer.is_paused p));
    ("current_frame", VInt (MediaPlayer.current_frame p));
    ("total_frames", VInt (MediaPlayer.total_frames p));
    ("speed", VFloat (MediaPlayer.speed p));
    ("timestamp", VStr timestamp);
    ("video_path", VStr (MediaPlayer.video_path p));
    ("fps", VFloat (MediaPlayer.fps p)) ].

(** What [reset] leaves of a player. *)
Definition rewound (p : MediaPlayer.state) : MediaPlayer.state :=
  {| MediaPlayer.video_path := MediaPlayer.video_path p;
     MediaPlayer.cap :=
       option_map (set_pos_frames (PyFloat.of_Z 0)) (MediaPlayer.cap p);
     MediaPlayer.is_playing := false;
     MediaPlayer.is_paused := false;
     MediaPlayer.current_frame := 0;
     MediaPlayer.total_frames := MediaPlayer.total_frames p;
     MediaPlayer.fps := MediaPlayer.fps p;
     MediaPlayer.speed := MediaPlayer.speed p;
     MediaPlayer.play_thread := MediaPlayer.play_thread p |}.

(** A player some way into the clip, playing. *)
Definition running_player : MediaPlayer.state :=
  MediaPlayer.set_current_frame 420
    (snd (MediaPlayer.play (Some speed_2_0) example_player)).

(** A player whose clip reports the smallest positive frame rate, one frame
    in: the playback time [1 / 5e-324] is infinite.  The state is put
    together field by field; no run of the program reaches it, since the
    frame delay at this rate is infinite too and [time.sleep] refuses
    it. *)
Definition slow_player : MediaPlayer.state :=
  MediaPlayer.set_current_frame 1
    (MediaPlayer.set_fps (S754_finite false 1 (-1074)) example_player).

Definition slow_service : VideoService.state :=
  {| VideoService.media_player := Some slow_player |}.

(** A host whose video library opens the file and reports a frame count
    that is not a number. *)
Definition nan_count_host : Host :=
  {| os_path_exists := fun _ => true;
     cv2_VideoCapture := fun _ =>
       example_capture true S754_nan (PyFloat.of_Z 25) |}.

(** What [__init__] builds from an open capture whose frame count converts
    to the integer [n]. *)
Definition loaded_player (path : string) (c : VideoCapture) (n : Z)
    : MediaPlayer.state :=
  {| MediaPlayer.video_path := path;
     MediaPlayer.cap := Some c;
     MediaPlayer.is_playing := false;
     MediaPlayer.is_paused := false;
     MediaPlayer.current_frame := 0;
     MediaPlayer.total_frames := n;
     MediaPlayer.fps :=
       if PyFloat.leb (CAP_PROP_FPS c) (PyFloat.of_Z 0)
       then PyFloat.of_Z 30 else CAP_PROP_FPS c;
     MediaPlayer.speed := speed_1_0;
     MediaPlayer.play_thread := None |}.


(** The exceptions of float arithmetic gone out of range. *)
Definition arithmetic_error (e : exn) : Prop :=
  exists msg, e = ValueError msg \/ e = OverflowError msg.

(** A state with a frame number beyond the range of a double, put
    together field by field: to reach it the worker would have to show
    2^1024 frames. *)
Definition huge_frame_player : MediaPlayer.state :=
  MediaPlayer.set_current_frame (2 ^ 1024) example_player.

Definition huge_frame_service : VideoService.state :=
  {| VideoService.media_player := Some huge_frame_player |}.

(** ** The worker thread: [_add_overlays], [_play_video], [__del__]

    The worker is embedded as the sequential code it is.  What a pass
    through its loop meets outside the player is given with the pass: the
    result of [cap.read()], what [time.sleep] does with the delay it is
    handed, and the key [cv2.waitKey(1)] returns.  The drawing calls
    ([cv2.putText], [cv2.imshow]) are taken to return, like
    [cv2.destroyAllWindows]. *)

Record Pass : Type := {
  read : bool * VideoCapture;
  sleep : float -> outcome unit;
  waitKey : Z
}.

Module Worker.

(** A text drawn on the frame, with its position. *)
Definition overlay : Set := (string * (Z * Z))%type.

(** The literal [0.1]. *)
Definition tenth : float := S754_finite false 7205759403792794 (-56).

(** [_add_overlays]: the frame is an array the method draws on; the model
    returns what it draws. *)
Definition _add_overlays : M MediaPlayer.state (list overlay) :=
  timestamp <- MediaPlayer._get_timestamp ;;
  self <- get ;;
  let speed_text :=
    ("Speed: " ++ PyFloat.repr (MediaPlayer.speed self) ++ "x")%string in
  ret [ (timestamp, (10, 30)); (speed_text, (10, 70)) ].

(** [(1.0 / self.fps) / self.speed]. *)
Definition frame_delay : M MediaPlayer.state float :=
  self <- get ;;
  per_frame <- eval (truediv (PyFloat.of_Z 1) (MediaPlayer.fps self)) ;;
  eval (truediv per_frame (MediaPlayer.speed self)).

(** The loop test: [self.is_playing and self.cap and self.cap.isOpened()]. *)
Definition loop_test (self : MediaPlayer.state) : bool :=
  MediaPlayer.is_playing self
  && match MediaPlayer.cap self with
     | Some c => isOpened c
     | None => false
     end.

Inductive control : Set := Continue | Break.

(** The loop body. *)
Definition loop_body (pass : Pass) : M MediaPlayer.state control :=
  self <- get ;;
  if MediaPlayer.is_paused self then
    eval (sleep pass tenth) ;;
    ret Continue
  else
    modify (MediaPlayer.set_cap (Some (snd (read pass)))) ;;
    if negb (fst (read pass)) then ret Break
    else
      _add_overlays ;;
      delay <- frame_delay ;;
      eval (sleep pass delay) ;;
      self <- get ;;
      modify (MediaPlayer.set_current_frame
                (MediaPlayer.current_frame self + 1)) ;;
      let key := Z.land (waitKey pass) 255 in
      if existsb (fun item => Z.eqb item key) [113; 27]
      then ret Break
      else ret Continue.

(** Whether the worker is still in its loop or has left it. *)
Inductive status : Set := Running | Finished.

(** After the loop: [self.is_playing = False]. *)
Definition after_loop : M MediaPlayer.state status :=
  modify (MediaPlayer.set_is_playing false) ;;
  ret Finished.

(** [_play_video], for as many passes as are given: [Running] when the loop
    is still going after the last of them. *)
Fixpoint _play_video (passes : list Pass) : M MediaPlayer.state status :=
  fun self =>
    if loop_test self then
      match passes with
      | [] => (Returns Running, self)
      | pass :: rest =>
          match loop_body pass self with
          | (Returns Continue, self') => _play_video rest self'
          | (Returns Break, self') => after_loop self'
          | (Raises e, self') => (Raises e, self')
          end
      end
    else after_loop self.

(** [__del__]. *)
Definition __del__ : M MediaPlayer.state unit :=
  self <- get ;;
  match MediaPlayer.cap self with
  | Some c => modify (MediaPlayer.set_cap (Some (release c)))
  | None => ret tt
  end.

End Worker.

(** ** [app/models/requests.py] and [app/routes/video.py] *)

Module PlayRequest.

Record t : Set := { speed : option float }.

(** [PlayRequest()]. *)
Definition default : t := {| speed := None |}.

End PlayRequest.

Module SpeedRequest.

Record t : Set := { speed : float }.

End SpeedRequest.

Module Routes.

(** [video_service = VideoService()]: the one service of the process, which
    every route runs on. *)
Definition video_service : VideoService.state := VideoService.__init__.

Definition load_video (host : Host) (video_path : string)
    : M VideoService.state dict :=
  VideoService.load_video host video_path.

Definition play_video (request : PlayRequest.t) : M VideoService.state dict :=
  VideoService.play_video (PlayRequest.speed request).

Definition pause_video : M VideoService.state dict :=
  VideoService.pause_video.

Definition stop_video : M VideoService.state dict :=
  VideoService.stop_video.

Definition reset_video : M VideoService.state dict :=
  VideoService.reset_video.

Definition set_speed (request : SpeedRequest.t) : M VideoService.state dict :=
  VideoService.set_speed (SpeedRequest.speed request).

Definition get_status : M VideoService.state dict :=
  VideoService.get_status.

End Routes.

(** The router's table: the seven endpoints, with the argument each route
    function receives. *)
Inductive call : Set :=
| POST_load_video (video_path : string)
| POST_play (request : PlayRequest.t)
| POST_pause
| POST_stop
| POST_reset
| POST_set_speed (request : SpeedRequest.t)
| GET_status.

Definition dispatch (host : Host) (c : call) : M VideoService.state dict :=
  match c with
  | POST_load_video video_path => Routes.load_video host video_path
  | POST_play request => Routes.play_video request
  | POST_pause => Routes.pause_video
  | POST_stop => Routes.stop_video
  | POST_reset => Routes.reset_video
  | POST_set_speed request => Routes.set_speed request
  | GET_status => Routes.get_status
  end.

(** A session: calls served one after the other, each on the host as it is
    at the time; a call that raises leaves the service running. *)
Fixpoint serve (session : list (Host * call)) (svc : VideoService.state)
    : list (outcome dict) * VideoService.state :=
  match session with
  | [] => ([], svc)
  | (host, c) :: rest =>
      let (r, svc') := dispatch host c svc in
      let (rs, svc'') := serve rest svc' in
      (r :: rs, svc'')
  end.

(** ** [app/config/settings.py] and the address [main.py] binds *)

(** What [json.load] returns. *)
#[local] Set Warnings "-register-all".
Inductive json : Set :=
| JNull
| JBool (b : bool)
| JInt (n : Z)
| JFloat (x : float)
| JStr (s : string)
| JList (items : list json)
| JDict (items : list (string * json)).

(** [type(v).__name__]. *)
Definition type_name (v : json) : string :=
  match v with
  | JNull => "NoneType"
  | JBool _ => "bool"
  | JInt _ => "int"
  | JFloat _ => "float"
  | JStr _ => "str"
  | JList _ => "list"
  | JDict _ => "dict"
  end.

Fixpoint lookup (items : list (string * json)) (key : string) : option json :=
  match items with
  | [] => None
  | (k, v) :: rest => if String.eqb k key then Some v else lookup rest key
  end.

(** [v.get(key, default)]: [dict.get] on a dict, [AttributeError] on
    anything else [json.load] can return. *)
Definition dot_get (v : json) (key : string) (default : json) : outcome json :=
  match v with
  | JDict items =>
      Returns match lookup items key with
              | Some found => found
              | None => default
              end
  | _ =>
      Raises (AttributeError ("'" ++ type_name v
                              ++ "' object has no attribute 'get'"))
  end.

(** What opening and parsing [config.json] comes to: one of the two
    exceptions [_load_config] handles; any other exception [open] or
    [json.load] raises ([PermissionError], [IsADirectoryError],
    [RecursionError] as [OtherError]s; [UnicodeDecodeError] and the error
    for an integer beyond the digit limit, [ValueError]s that are no
    [JSONDecodeError]); or the value [json.load] returns. *)
Inductive config_file : Set :=
| FileNotFoundError
| JSONDecodeError
| Raised (e : exn)
| Parsed (v : json).

Module Settings.

Record t : Set := { _config : json }.

(** [_load_config]: an exception that neither [except] clause names
    leaves the method as it is. *)
Definition _load_config (file : config_file) : outcome json :=
  match file with
  | Parsed v => Returns v
  | FileNotFoundError => Returns (JDict [])
  | JSONDecodeError => Raises (ValueError "Invalid JSON in config.json")
  | Raised e => Raises e
  end.

(** [__init__]. *)
Definition __init__ (file : config_file) : outcome t :=
  match _load_config file with
  | Returns v => Returns {| _config := v |}
  | Raises e => Raises e
  end.

(** The [config] property. *)
Definition config (self : t) : json := _config self.

(** [get]. *)
Definition get (self : t) (key : string) (default : json) : outcome json :=
  dot_get (_config self) key default.

End Settings.

(** Sequencing of expressions that may raise. *)
Definition and_then {A B} (r : outcome A) (k : A -> outcome B) : outcome B :=
  match r with
  | Returns a => k a
  | Raises e => Raises e
  end.

(** [main.py]: the [host] and [port] handed to [uvicorn.run]. *)
Definition bind_address (settings : Settings.t) : outcome (json * json) :=
  and_then (Settings.get settings "backend" (JDict [])) (fun backend =>
  and_then (dot_get backend "host" (JStr "0.0.0.0")) (fun host =>
  and_then (Settings.get settings "backend" (JDict [])) (fun backend' =>
  and_then (dot_get backend' "port" (JInt 8000)) (fun port =>
  Returns (host, port))))).

(** [settings = Settings()] at import, then the address. *)
Definition startup (file : config_file) : outcome (json * json) :=
  and_then (Settings.__init__ file) bind_address.

(** ** Vocabulary of the further statements *)

(** What the worker leaves alone: everything but the capture, the frame
    counter and [is_playing]. *)
Definition worker_keeps (p p' : MediaPlayer.state) : Prop :=
  MediaPlayer.video_path p' = MediaPlayer.video_path p
  /\ MediaPlayer.total_frames p' = MediaPlayer.total_frames p
  /\ MediaPlayer.fps p' = MediaPlayer.fps p
  /\ MediaPlayer.speed p' = MediaPlayer.speed p
  /\ MediaPlayer.is_paused p' = MediaPlayer.is_paused p
  /\ MediaPlayer.play_thread p' = MediaPlayer.play_thread p.

(** The speed is an allowed one and the frame rate is not [<= 0]. *)
Definition well_formed (p : MediaPlayer.state) : bool :=
  MediaPlayer.contains MediaPlayer.VALID_SPEEDS (MediaPlayer.speed p)
  && negb (PyFloat.leb (MediaPlayer.fps p) (PyFloat.of_Z 0)).


Definition service_well_formed (svc : VideoService.state) : Prop :=
  forall p, VideoService.media_player svc = Some p -> well_formed p = true.

(** A host whose library reports a frame rate of zero. *)
Definition zero_rate_host : Host :=
  {| os_path_exists := fun _ => true;
     cv2_VideoCapture := fun _ =>
       example_capture true (PyFloat.of_Z 900) (PyFloat.of_Z 0) |}.

Definition example_session : list (Host * call) :=
  [ (example_host, GET_status);
    (zero_rate_host, POST_load_video "clip.mp4");
    (example_host, POST_set_speed {| SpeedRequest.speed := three |});
    (example_host, POST_play {| PlayRequest.speed := Some speed_4_0 |});
    (example_host, POST_pause) ].

Definition example_session_player : MediaPlayer.state :=
  {| MediaPlayer.video_path := "clip.mp4";
     MediaPlayer.cap :=
       Some (example_capture true (PyFloat.of_Z 900) (PyFloat.of_Z 0));
     MediaPlayer.is_playing := true;
     MediaPlayer.is_paused := true;
     MediaPlayer.current_frame := 0;
     MediaPlayer.total_frames := 900;
     MediaPlayer.fps := PyFloat.of_Z 30;
     MediaPlayer.speed := speed_4_0;
     MediaPlayer.play_thread := Some {| daemon := true; started := true |} |}.

(** A pass on which nothing is read but [time.sleep] returns. *)
Definition quiet_pass : Pass :=
  {| read := (false, example_capture true (PyFloat.of_Z 900) (PyFloat.of_Z 25));
     sleep := fun _ => Returns tt;
     waitKey := -1 |}.

(** A pass on which a frame is read and [time.sleep] refuses the delay. *)
Definition failing_pass : Pass :=
  {| read := (true, example_capture true (PyFloat.of_Z 900) (PyFloat.of_Z 25));
     sleep := fun _ => Raises (ValueError "sleep length must be non-negative");
     waitKey := -1 |}.

(** A pass on which a frame is read and shown, with the key [q] pressed
    under a modifier flag. *)
Definition quit_pass : Pass :=
  {| read := (true, example_capture true (PyFloat.of_Z 900) (PyFloat.of_Z 25));
     sleep := fun _ => Returns tt;
     waitKey := 1048576 + 113 |}.

(** The error [v.get] raises on a value that is no dict. *)
Definition no_get (v : json) : exn :=
  AttributeError ("'" ++ type_name v ++ "' object has no attribute 'get'").

Definition is_dict (v : json) : bool :=
  match v with JDict _ => true | _ => false end.

(** The response of a call on a service that holds no player. *)
Definition unloaded_response (c : call) : outcome dict :=
  match c with
  | GET_status => Returns [ ("loaded", VBool false) ]
  | _ => Raises (HTTPException 400 (VStr "No video loaded"))
  end.

Definition is_load (c : call) : bool :=
  match c with POST_load_video _ => true | _ => false end.

Definition idle_session : list (Host * call) :=
  [ (example_host, POST_play PlayRequest.default);
    (example_host, GET_status);
    (example_host, POST_set_speed {| SpeedRequest.speed := speed_2_0 |});
    (example_host, POST_reset) ].

(** ** Runs: calls and worker passes

    What a process has done to its service by the time a call arrives: the
    calls it has served and the passes the worker has made through its
    loop, in the order they took place.  A pass is taken whole, and on
    the player the service holds at the time; the passes of a worker that
    no [play] has started, or that has ended, are not excluded, so that
    the runs include every state the program reaches.  What the statements
    about runs rest on does not depend on where a call falls within a
    pass: the worker counts a frame only after [time.sleep] has returned
    on the delay computed from [fps] and one of the allowed speeds, no
    call assigns [fps], and [reset] zeroes the counter after [stop] has
    joined the worker. *)

Inductive event : Type :=
| Request (host : Host) (c : call)
| Frame (pass : Pass).

Definition step (ev : event) (svc : VideoService.state) : VideoService.state :=
  match ev with
  | Request host c => snd (dispatch host c svc)
  | Frame pass =>
      match VideoService.media_player svc with
      | Some p =>
          {| VideoService.media_player :=
               Some (snd (Worker._play_video [pass] p)) |}
      | None => svc
      end
  end.

Definition run (events : list event) (svc : VideoService.state)
    : VideoService.state :=
  fold_left (fun svc ev => step ev svc) events svc.

(** CPython's [time.sleep] converts the delay to a 64-bit count of
    nanoseconds before it waits, and raises [OverflowError] when the delay
    does not fit ([ValueError] on a NaN): it returns on no delay beyond
    2^63 ns, and so on none beyond 2^34 s. *)
Definition sleep_limit : float := PyFloat.of_Z (2 ^ 34).

Definition sleeps_as_cpython (pass : Pass) : Prop :=
  forall delay, sleep pass delay = Returns tt ->
                PyFloat.leb delay sleep_limit = true.

Definition as_cpython (ev : event) : Prop :=
  match ev with
  | Request _ _ => True
  | Frame pass => sleeps_as_cpython pass
  end.

(** A zero, or a finite float of magnitude below [2^B]. *)
Definition below (B : Z) (x : float) : Prop :=
  match x with
  | S754_zero _ => True
  | S754_finite _ m e => Zpos (digits2_pos m) + e <= B
  | _ => False
  end.

(** A positive frame rate below 2^-92: the frame delay it gives is beyond
    [sleep_limit] at every allowed speed. *)
Definition slow_rate (rate : float) : bool :=
  match rate with
  | S754_finite false m e => Zpos (digits2_pos m) + e <=? -92
  | _ => false
  end.

(** What holds of the player on every state of a run: a frame has been
    counted only at a frame rate that is not a slow one. *)
Definition counted_frames_ok (p : MediaPlayer.state) : Prop :=
  well_formed p = true
  /\ 0 <= MediaPlayer.current_frame p
  /\ (MediaPlayer.current_frame p = 0
      \/ slow_rate (MediaPlayer.fps p) = false).

Definition service_ok (svc : VideoService.state) : Prop :=
  forall p, VideoService.media_player svc = Some p -> counted_frames_ok p.

(** A pass on which a frame is read, no key is pressed, and [time.sleep]
    returns on a delay from 0 to [sleep_limit] and raises on any other. *)
Definition timed_pass : Pass :=
  {| read := (true, example_capture true (PyFloat.of_Z 900) (PyFloat.of_Z 25));
     sleep := fun delay =>
       if PyFloat.leb PyFloat.zero delay && PyFloat.leb delay sleep_limit
       then Returns tt
       else Raises (OverflowError
                      "timestamp too large to convert to C _PyTime_t");
     waitKey := -1 |}.

(** A host whose library reports the smallest positive frame rate,
    5e-324. *)
Definition slow_host : Host :=
  {| os_path_exists := fun _ => true;
     cv2_VideoCapture := fun _ =>
       example_capture true (PyFloat.of_Z 900) (S754_finite false 1 (-1074)) |}.

(** Load at that rate, play, and a pass of the worker. *)
Definition slow_run : list event :=
  [ Request slow_host (POST_load_video "clip.mp4");
    Request slow_host (POST_play PlayRequest.default);
    Frame timed_pass ].

(** Load, play, and three frames shown. *)
Definition example_run : list event :=
  [ Request example_host (POST_load_video "clip.mp4");
    Request example_host (POST_play PlayRequest.default);
    Frame timed_pass; Frame timed_pass; Frame timed_pass ].

Definition example_run_player : MediaPlayer.state :=
  {| MediaPlayer.video_path := "clip.mp4";
     MediaPlayer.cap :=
       Some (example_capture true (PyFloat.of_Z 900) (PyFloat.of_Z 25));
     MediaPlayer.is_playing := true;
     MediaPlayer.is_paused := false;
     MediaPlayer.current_frame := 3;
     MediaPlayer.total_frames := 900;
     MediaPlayer.fps := PyFloat.of_Z 25;
     MediaPlayer.speed := speed_1_0;
     MediaPlayer.play_thread := Some {| daemon := true; started := true |} |}.

(** * Properties *)

(** Unfolds a method body down to the case analysis it performs. *)
Ltac unfold_method :=
  unfold try_except, bind, get, modify, eval, raise, ret.


(** ** The float model on sample values

    The strings and numbers CPython gives for the same inputs. *)

Example repr_samples :
  map PyFloat.repr
    [ PyFloat.half; PyFloat.of_Z 1; PyFloat.of_Z 3;
      S754_finite false 8435805052018360 (-48);
      S754_finite false 7205759403792794 (-56);
      S754_finite false 5000000000000000 1;
      S754_finite false 5902958103587057 (-69);
      S754_finite true 1 (-1074) ]
  = [ "0.5"; "1.0"; "3.0"; "29.97"; "0.1"; "1e+16"; "1e-05"; "-5e-324" ].
Proof. vm_compute. reflexivity. Qed.

Example timestamp_samples :
  let at_frame n rate :=
    fst (MediaPlayer._get_timestamp
           (MediaPlayer.set_current_frame n
              (MediaPlayer.set_fps rate example_player))) in
  at_frame 45 (PyFloat.of_Z 30) = Returns "00:01:500"
  /\ at_frame 420 (PyFloat.of_Z 25) = Returns "00:16:800"
  /\ at_frame 90061 (S754_finite false 8435805052018360 (-48))
     = Returns "50:05:038"
  /\ at_frame 123456 (PyFloat.div (PyFloat.of_Z 30000) (PyFloat.of_Z 1001))
     = Returns "68:39:315"
  /\ at_frame 7 S754_nan = Returns "00:00:000".
Proof. repeat split; vm_compute; reflexivity. Qed.

(** ** Equality of floats and membership in [VALID_SPEEDS] *)

Lemma compare_cont_Eq_eq (a b : positive) :
  Pos.compare_cont Eq a b = Eq -> a = b.
Proof. apply Pos.compare_eq. Qed.

(** Python's [==] against a finite non-zero float holds of that float
    alone. *)
Lemma eqb_finite_iff (s : bool) (m : positive) (e : Z) (x : float) :
  PyFloat.eqb (S754_finite s m e) x = true <-> x = S754_finite s m e.
Proof.
  split.
  - unfold PyFloat.eqb, SFeqb, SFcompare.
    destruct x as [ s' | s' | | s' m' e'];
      try (destruct s; discriminate); try (destruct s'; discriminate).
    destruct s, s'; try discriminate;
      destruct (Z.compare e e') eqn:He; try discriminate;
      destruct (Pos.compare_cont Eq m m') eqn:Hm; cbn; try discriminate;
      intros _; apply Z.compare_eq in He; apply compare_cont_Eq_eq in Hm;
      subst; reflexivity.
  - intros ->. unfold PyFloat.eqb, SFeqb, SFcompare.
    rewrite Z.compare_refl.
    change (Pos.compare_cont Eq m m) with (Pos.compare m m).
    rewrite Pos.compare_refl. destruct s; reflexivity.
Qed.

(** The four literals as binary64 numbers: mantissa [2^52], exponents
    [-53] to [-50]; [0.5] is also the quotient [1 / 2]. *)
Lemma speed_literals :
  speed_0_5 = S754_finite false 4503599627370496 (-53)
  /\ speed_1_0 = S754_finite false 4503599627370496 (-52)
  /\ speed_2_0 = S754_finite false 4503599627370496 (-51)
  /\ speed_4_0 = S754_finite false 4503599627370496 (-50)
  /\ PyFloat.div (PyFloat.of_Z 1) (PyFloat.of_Z 2) = speed_0_5.
Proof. repeat split; vm_compute; reflexivity. Qed.

Lemma contains_VALID_SPEEDS_iff (s : float) :
  MediaPlayer.contains MediaPlayer.VALID_SPEEDS s = true <-> allowed_speed s.
Proof.
  destruct speed_literals as (H05 & H10 & H20 & H40 & _).
  unfold MediaPlayer.contains, MediaPlayer.VALID_SPEEDS, allowed_speed.
  fold speed_0_5 speed_1_0 speed_2_0 speed_4_0.
  rewrite H05, H10, H20, H40.
  cbn [existsb]. rewrite !orb_true_iff, !eqb_finite_iff.
  intuition congruence.
Qed.

Lemma three_not_allowed :
  MediaPlayer.contains MediaPlayer.VALID_SPEEDS three = false.
Proof. vm_compute. reflexivity. Qed.

Lemma invalid_speed_message :
  ("Invalid speed. Must be one of: "
   ++ str_float_list MediaPlayer.VALID_SPEEDS)%string
  = "Invalid speed. Must be one of: [0.5, 1.0, 2.0, 4.0]".
Proof. vm_compute. reflexivity. Qed.

(** ** The player's methods, case by case *)

Lemma player_set_speed_valid (s : float) (p : MediaPlayer.state) :
  MediaPlayer.contains MediaPlayer.VALID_SPEEDS s = true ->
  MediaPlayer.set_speed s p = (Returns tt, MediaPlayer.assign_speed s p).
Proof. intros H. unfold MediaPlayer.set_speed. rewrite H. reflexivity. Qed.

Lemma player_set_speed_invalid (s : float) (p : MediaPlayer.state) :
  MediaPlayer.contains MediaPlayer.VALID_SPEEDS s = false ->
  MediaPlayer.set_speed s p
  = (Raises (ValueError
       "Invalid speed. Must be one of: [0.5, 1.0, 2.0, 4.0]"), p).
Proof.
  intros H. unfold MediaPlayer.set_speed. rewrite H.
  rewrite invalid_speed_message. reflexivity.
Qed.

Lemma player_play_invalid (s : float) (p : MediaPlayer.state) :
  MediaPlayer.contains MediaPlayer.VALID_SPEEDS s = false ->
  MediaPlayer.play (Some s) p
  = (Raises (ValueError
       "Invalid speed. Must be one of: [0.5, 1.0, 2.0, 4.0]"), p).
Proof.
  intros H. unfold MediaPlayer.play. unfold_method.
  rewrite (player_set_speed_invalid s p H). reflexivity.
Qed.

(** ** The service's methods on a service that holds a player *)

Lemma service_eta (svc : VideoService.state) (p : MediaPlayer.state) :
  VideoService.media_player svc = Some p ->
  svc = {| VideoService.media_player := Some p |}.
Proof. destruct svc as [mp]. cbn. intros ->. reflexivity. Qed.

Lemma load_video_not_found (host : Host) (path : string)
    (svc : VideoService.state) :
  os_path_exists host path = false ->
  VideoService.load_video host path svc
  = (Raises (HTTPException 400 (VStr "404: Video file not found")), svc).
Proof.
  intros H. unfold VideoService.load_video. unfold_method.
  rewrite H. reflexivity.
Qed.

Arguments PyFloat.repr x : simpl never.
Arguments str_exn e : simpl never.

(** How each guarded method of the service unfolds once a player is
    installed. *)
Lemma set_speed_loaded (s : float) (p : MediaPlayer.state) :
  VideoService.set_speed s {| VideoService.media_player := Some p |}
  = match MediaPlayer.set_speed s p with
    | (Returns _, p') =>
        (Returns [ ("message",
                    VStr ("Speed set to " ++ PyFloat.repr s ++ "x"));
                   ("speed", VFloat s) ],
         {| VideoService.media_player := Some p' |})
    | (Raises e, p') =>
        (if is_ValueError e
         then Raises (HTTPException 400 (VStr (str_exn e)))
         else Raises e,
         {| VideoService.media_player := Some p' |})
    end.
Proof.
  unfold VideoService.set_speed, VideoService.require_loaded,
    VideoService.on_player, VideoService.bad_request. unfold_method.
  cbn. destruct (MediaPlayer.set_speed s p) as [[u | e] p']; cbn.
  - reflexivity.
  - destruct (is_ValueError e); reflexivity.
Qed.

Lemma play_video_loaded (o : option float) (p : MediaPlayer.state) :
  VideoService.play_video o {| VideoService.media_player := Some p |}
  = match MediaPlayer.play o p with
    | (Returns _, p') =>
        (Returns [ ("message", VStr "Video playback started");
                   ("speed", VFloat (MediaPlayer.speed p')) ],
         {| VideoService.media_player := Some p' |})
    | (Raises e, p') =>
        (Raises (HTTPException 400 (VStr (str_exn e))),
         {| VideoService.media_player := Some p' |})
    end.
Proof.
  unfold VideoService.play_video, VideoService.require_loaded,
    VideoService.on_player, VideoService.bad_request. unfold_method.
  cbn. destruct (MediaPlayer.play o p) as [[u | e] p']; reflexivity.
Qed.

(** ** Loading a path that does not exist *)

(** C1 (code defect).  [load_video] raises [HTTPException(404, "Video file
    not found")] for a path with no file, but raises it inside its own
    [try], whose [except Exception] catches it and raises status 400 with
    the text of the first exception as detail.  For every host on which no
    path exists, every path and every service state, the call ends in
    status 400, not 404; the service is left as it was. *)
Theorem load_video_missing_file_raises_400
    (capture : string -> VideoCapture) (path : string)
    (svc : VideoService.state) :
  VideoService.load_video
    {| os_path_exists := fun _ => false; cv2_VideoCapture := capture |}
    path svc
  = (Raises (HTTPException 400 (VStr "404: Video file not found")), svc).
Proof. apply load_video_not_found. reflexivity. Qed.

(** ** Speeds *)

(** C2.  On a loaded player, [set_speed] with a speed outside
    [VALID_SPEEDS] raises status 400 and leaves the whole service state,
    the stored speed in particular, as it was. *)
Theorem set_speed_invalid_leaves_state
    (svc : VideoService.state) (p : MediaPlayer.state) (s : float) :
  VideoService.media_player svc = Some p ->
  MediaPlayer.contains MediaPlayer.VALID_SPEEDS s = false ->
  exists (detail : string) (p' : MediaPlayer.state),
    VideoService.set_speed s svc
    = (Raises (HTTPException 400 (VStr detail)),
       {| VideoService.media_player := Some p' |})
    /\ MediaPlayer.speed p' = MediaPlayer.speed p
    /\ p' = p.
Proof.
  intros Hp Hs. rewrite (service_eta svc p Hp), set_speed_loaded.
  rewrite (player_set_speed_invalid s p Hs). cbn.
  eexists. exists p. repeat split.
Qed.

Lemma set_speed_invalid_leaves_state_witness :
  exists (detail : string) (p' : MediaPlayer.state),
    VideoService.set_speed three example_service
    = (Raises (HTTPException 400 (VStr detail)),
       {| VideoService.media_player := Some p' |})
    /\ MediaPlayer.speed p' = MediaPlayer.speed example_player
    /\ p' = example_player.
Proof.
  apply (set_speed_invalid_leaves_state example_service example_player three).
  - reflexivity.
  - vm_compute. reflexivity.
Defined.

(** C3.  On a loaded player, [set_speed(s)] returns exactly when [s] is one
    of 0.5, 1.0, 2.0 and 4.0; when it returns, the player's speed is [s],
    nothing else of the player has changed, and the response holds a
    message and the speed [s]; for every other [s] it raises status 400. *)
Theorem set_speed_succeeds_iff_allowed
    (svc : VideoService.state) (p : MediaPlayer.state) (s : float) :
  VideoService.media_player svc = Some p ->
  ((exists d svc', VideoService.set_speed s svc = (Returns d, svc'))
   <-> allowed_speed s)
  /\ (allowed_speed s ->
      exists msg,
        VideoService.set_speed s svc
        = (Returns [ ("message", VStr msg); ("speed", VFloat s) ],
           {| VideoService.media_player :=
                Some (MediaPlayer.assign_speed s p) |})
        /\ MediaPlayer.speed (MediaPlayer.assign_speed s p) = s)
  /\ (~ allowed_speed s ->
      exists detail,
        VideoService.set_speed s svc
        = (Raises (HTTPException 400 (VStr detail)), svc)).
Proof.
  intros Hp. rewrite (service_eta svc p Hp), set_speed_loaded.
  destruct (MediaPlayer.contains MediaPlayer.VALID_SPEEDS s) eqn:Hs.
  - pose proof (proj1 (contains_VALID_SPEEDS_iff s) Hs) as Ha.
    rewrite (player_set_speed_valid s p Hs).
    split; [ | split ].
    + split; [ intros _; exact Ha | intros _; eexists _, _; reflexivity ].
    + intros _. eexists. split; reflexivity.
    + intros Hn. contradiction.
  - assert (Hn : ~ allowed_speed s).
    { intros Ha. apply contains_VALID_SPEEDS_iff in Ha. congruence. }
    rewrite (player_set_speed_invalid s p Hs). cbn.
    split; [ | split ].
    + split; [ intros (d & svc' & H); discriminate | intros Ha; contradiction ].
    + intros Ha. contradiction.
    + intros _. eexists. reflexivity.
Qed.

Lemma set_speed_succeeds_iff_allowed_witness :
  ((exists d svc',
       VideoService.set_speed speed_2_0 example_service = (Returns d, svc'))
   <-> allowed_speed speed_2_0)
  /\ (allowed_speed speed_2_0 ->
      exists msg,
        VideoService.set_speed speed_2_0 example_service
        = (Returns [ ("message", VStr msg); ("speed", VFloat speed_2_0) ],
           {| VideoService.media_player :=
                Some (MediaPlayer.assign_speed speed_2_0 example_player) |})
        /\ MediaPlayer.speed
             (MediaPlayer.assign_speed speed_2_0 example_player) = speed_2_0)
  /\ (~ allowed_speed speed_2_0 ->
      exists detail,
        VideoService.set_speed speed_2_0 example_service
        = (Raises (HTTPException 400 (VStr detail)), example_service)).
Proof.
  apply (set_speed_succeeds_iff_allowed example_service example_player
           speed_2_0).
  reflexivity.
Defined.

(** C9.  On a loaded player, [play_video] with a speed outside
    [VALID_SPEEDS] raises status 400 and leaves [is_playing], [is_paused]
    and [speed], with the rest of the state, as they were: [play] checks
    the speed before it touches a playback flag. *)
Theorem play_video_invalid_speed_leaves_state
    (svc : VideoService.state) (p : MediaPlayer.state) (s : float) :
  VideoService.media_player svc = Some p ->
  MediaPlayer.contains MediaPlayer.VALID_SPEEDS s = false ->
  exists (detail : string) (p' : MediaPlayer.state),
    VideoService.play_video (Some s) svc
    = (Raises (HTTPException 400 (VStr detail)),
       {| VideoService.media_player := Some p' |})
    /\ MediaPlayer.is_playing p' = MediaPlayer.is_playing p
    /\ MediaPlayer.is_paused p' = MediaPlayer.is_paused p
    /\ MediaPlayer.speed p' = MediaPlayer.speed p
    /\ p' = p.
Proof.
  intros Hp Hs. rewrite (service_eta svc p Hp), play_video_loaded.
  rewrite (player_play_invalid s p Hs).
  eexists. exists p. repeat split.
Qed.

Lemma play_video_invalid_speed_leaves_state_witness :
  exists (detail : string) (p' : MediaPlayer.state),
    VideoService.play_video (Some three) example_service
    = (Raises (HTTPException 400 (VStr detail)),
       {| VideoService.media_player := Some p' |})
    /\ MediaPlayer.is_playing p' = MediaPlayer.is_playing example_player
    /\ MediaPlayer.is_paused p' = MediaPlayer.is_paused example_player
    /\ MediaPlayer.speed p' = MediaPlayer.speed example_player
    /\ p' = example_player.
Proof.
  apply (play_video_invalid_speed_leaves_state
           example_service example_player three).
  - reflexivity.
  - vm_compute. reflexivity.
Defined.

(** ** Before any load *)

(** C4.  While no video is loaded, [play_video], [pause_video],
    [stop_video], [reset_video] and [set_speed] each raise status 400 with
    detail "No video loaded" and leave the service as it was. *)
Theorem control_without_video_raises_400
    (svc : VideoService.state) (o : option float) (s : float) :
  VideoService.media_player svc = None ->
  let refused : outcome dict * VideoService.state :=
    (Raises (HTTPException 400 (VStr "No video loaded")), svc) in
  VideoService.play_video o svc = refused
  /\ VideoService.pause_video svc = refused
  /\ VideoService.stop_video svc = refused
  /\ VideoService.reset_video svc = refused
  /\ VideoService.set_speed s svc = refused.
Proof.
  intros Hnone refused. subst refused.
  unfold VideoService.play_video, VideoService.pause_video,
      VideoService.stop_video, VideoService.reset_video,
    VideoService.set_speed, VideoService.require_loaded. unfold_method.
  rewrite Hnone. repeat split.
Qed.

Lemma control_without_video_raises_400_witness :
  let refused : outcome dict * VideoService.state :=
    (Raises (HTTPException 400 (VStr "No video loaded")),
     VideoService.__init__) in
  VideoService.play_video None VideoService.__init__ = refused
  /\ VideoService.pause_video VideoService.__init__ = refused
  /\ VideoService.stop_video VideoService.__init__ = refused
  /\ VideoService.reset_video VideoService.__init__ = refused
  /\ VideoService.set_speed speed_2_0 VideoService.__init__ = refused.
Proof.
  apply (control_without_video_raises_400 VideoService.__init__ None
           speed_2_0).
  reflexivity.
Defined.

(** ** The playback flags *)

Lemma load_video_keeps_flags (host : Host) (p : MediaPlayer.state) :
  let p' := snd (MediaPlayer._load_video host p) in
  MediaPlayer.is_playing p' = MediaPlayer.is_playing p
  /\ MediaPlayer.is_paused p' = MediaPlayer.is_paused p
  /\ MediaPlayer.current_frame p' = MediaPlayer.current_frame p
  /\ MediaPlayer.speed p' = MediaPlayer.speed p
  /\ MediaPlayer.video_path p' = MediaPlayer.video_path p
  /\ MediaPlayer.play_thread p' = MediaPlayer.play_thread p.
Proof.
  unfold MediaPlayer._load_video. unfold_method.
  destruct (MediaPlayer.cap p) as [c | ]; cbn;
    destruct (isOpened (cv2_VideoCapture host (MediaPlayer.video_path p)));
    cbn; try (repeat split; reflexivity);
    destruct (int_of_float _) as [n | e]; cbn;
    try (repeat split; reflexivity);
    destruct (PyFloat.leb _ _); cbn; repeat split; reflexivity.
Qed.

Lemma init_flags (host : Host) (path : string) (p : MediaPlayer.state) :
  MediaPlayer.__init__ host path = Returns p ->
  MediaPlayer.is_playing p = false
  /\ MediaPlayer.is_paused p = false
  /\ MediaPlayer.current_frame p = 0
  /\ MediaPlayer.speed p = speed_1_0
  /\ MediaPlayer.video_path p = path
  /\ MediaPlayer.play_thread p = None.
Proof.
  unfold MediaPlayer.__init__.
  pose proof (load_video_keeps_flags host (MediaPlayer.fresh path)) as H.
  destruct (MediaPlayer._load_video host (MediaPlayer.fresh path))
    as [[u | e] p'] eqn:Hl; [ | discriminate ].
  intros [= <-]. cbn in H. exact H.
Qed.

(** C8.  [is_paused] implies [is_playing] on the object [__init__] builds,
    and [play], [pause], [stop] and [reset] each leave a state in which it
    holds when they start from one: [pause] sets [is_paused] only under
    [is_playing]; [play] and [stop] clear [is_paused] when they set or
    clear [is_playing]. *)
Theorem paused_implies_playing_is_invariant :
  (forall host path p,
      MediaPlayer.__init__ host path = Returns p -> paused_implies_playing p)
  /\ (forall p o, paused_implies_playing p ->
        paused_implies_playing (snd (MediaPlayer.play o p)))
  /\ (forall p, paused_implies_playing p ->
        paused_implies_playing (snd (MediaPlayer.pause p)))
  /\ (forall p, paused_implies_playing p ->
        paused_implies_playing (snd (MediaPlayer.stop p)))
  /\ (forall p, paused_implies_playing p ->
        paused_implies_playing (snd (MediaPlayer.reset p)))
  /\ (forall p,
        MediaPlayer.is_paused (snd (MediaPlayer.pause p)) = true ->
        MediaPlayer.is_paused p = false ->
        MediaPlayer.is_playing p = true)
  /\ (forall p o u p',
        MediaPlayer.play o p = (Returns u, p') ->
        MediaPlayer.is_playing p' = true /\ MediaPlayer.is_paused p' = false)
  /\ (forall p,
        MediaPlayer.is_playing (snd (MediaPlayer.stop p)) = false
        /\ MediaPlayer.is_paused (snd (MediaPlayer.stop p)) = false).
Proof.
  unfold paused_implies_playing.
  repeat match goal with |- _ /\ _ => split end.
  - intros host path p Hinit.
    destruct (init_flags host path p Hinit) as (_ & Hpaused & _).
    congruence.
  - intros p o Hinv.
    unfold MediaPlayer.play, MediaPlayer.set_speed. unfold_method.
    destruct o as [s | ];
      [ destruct (MediaPlayer.contains MediaPlayer.VALID_SPEEDS s) | ];
      cbn; try exact Hinv;
      destruct (MediaPlayer.is_playing p) eqn:Hplay; cbn; congruence.
  - intros p Hinv. unfold MediaPlayer.pause. unfold_method.
    destruct (MediaPlayer.is_playing p) eqn:Hplay; cbn; intuition congruence.
  - intros p _. cbn. discriminate.
  - intros p _. unfold MediaPlayer.reset, MediaPlayer.stop. unfold_method.
    cbn. destruct (MediaPlayer.cap p); cbn; discriminate.
  - intros p. unfold MediaPlayer.pause. unfold_method.
    destruct (MediaPlayer.is_playing p) eqn:Hplay; cbn; congruence.
  - intros p o u p'.
    unfold MediaPlayer.play, MediaPlayer.set_speed. unfold_method.
    destruct o as [s | ];
      [ destruct (MediaPlayer.contains MediaPlayer.VALID_SPEEDS s) | ];
      cbn; try discriminate;
      destruct (MediaPlayer.is_playing p) eqn:Hplay; cbn;
      intros [= _ <-]; cbn; auto.
  - intros p. cbn. auto.
Qed.

Lemma paused_implies_playing_is_invariant_witness :
  MediaPlayer.is_paused paused_player = true
  /\ paused_implies_playing paused_player
  /\ paused_implies_playing (snd (MediaPlayer.play None paused_player))
  /\ paused_implies_playing (snd (MediaPlayer.pause paused_player))
  /\ paused_implies_playing (snd (MediaPlayer.stop paused_player))
  /\ paused_implies_playing (snd (MediaPlayer.reset paused_player)).
Proof.
  assert (Hinv : paused_implies_playing paused_player)
    by (intros _; reflexivity).
  destruct paused_implies_playing_is_invariant
    as (_ & Hplay & Hpause & Hstop & Hreset & _).
  split; [ reflexivity | ].
  split; [ exact Hinv | ].
  split; [ exact (Hplay paused_player None Hinv) | ].
  split; [ exact (Hpause paused_player Hinv) | ].
  split; [ exact (Hstop paused_player Hinv) | ].
  exact (Hreset paused_player Hinv).
Defined.

(** ** The timestamp *)

(** A positive float is not zero. *)
Lemma positive_not_zero (x : float) :
  PyFloat.ltb (PyFloat.of_Z 0) x = true -> PyFloat.eqb x PyFloat.zero = false.
Proof. destruct x as [s | s | | s m e]; try destruct s; cbn; congruence. Qed.

(** [_get_timestamp] reads the player and leaves it as it is. *)
Lemma get_timestamp_reads_only (p : MediaPlayer.state) :
  snd (MediaPlayer._get_timestamp p) = p.
Proof.
  unfold MediaPlayer._get_timestamp. unfold_method.
  destruct (PyFloat.ltb _ _); [ | reflexivity ].
  repeat match goal with
         | |- context [match ?r with Returns _ => _ | Raises _ => _ end] =>
             destruct r
         end; reflexivity.
Qed.

(** At frame 0 the timestamp is ["00:00:000"], whatever the frame rate. *)
Lemma timestamp_at_frame_0 (p : MediaPlayer.state) :
  MediaPlayer.current_frame p = 0 ->
  MediaPlayer._get_timestamp p = (Returns "00:00:000", p).
Proof.
  intros Hframe.
  unfold MediaPlayer._get_timestamp. unfold_method.
  destruct (PyFloat.ltb (PyFloat.of_Z 0) (MediaPlayer.fps p)) eqn:Hfps;
    [ | reflexivity ].
  rewrite Hframe.
  change (float_of_int 0) with (Returns (A := float) PyFloat.zero).
  unfold truediv. rewrite (positive_not_zero _ Hfps).
  assert (Hq : PyFloat.div PyFloat.zero (MediaPlayer.fps p) = PyFloat.zero).
  { destruct (MediaPlayer.fps p) as [s | s | | s m e];
      try destruct s; cbn in Hfps; try discriminate; reflexivity. }
  rewrite Hq. vm_compute. reflexivity.
Qed.

Lemma player_get_status (p : MediaPlayer.state) :
  MediaPlayer.get_status p
  = match MediaPlayer._get_timestamp p with
    | (Returns ts, _) => (Returns (status_fields p ts), p)
    | (Raises e, _) => (Raises e, p)
    end.
Proof.
  unfold MediaPlayer.get_status. unfold_method.
  pose proof (get_timestamp_reads_only p) as Hsame.
  destruct (MediaPlayer._get_timestamp p) as [[ts | e] p']; cbn in Hsame;
    subst p'; reflexivity.
Qed.

Lemma get_status_loaded (p : MediaPlayer.state) :
  VideoService.get_status {| VideoService.media_player := Some p |}
  = match MediaPlayer._get_timestamp p with
    | (Returns ts, _) =>
        (Returns (status_fields p ts ++ [ ("loaded", VBool true) ]),
         {| VideoService.media_player := Some p |})
    | (Raises e, _) =>
        (Raises e, {| VideoService.media_player := Some p |})
    end.
Proof.
  unfold VideoService.get_status, VideoService.on_player. unfold_method.
  cbn [VideoService.media_player]. rewrite player_get_status.
  destruct (MediaPlayer._get_timestamp p) as [[ts | e] p']; reflexivity.
Qed.

Lemma player_reset (p : MediaPlayer.state) :
  MediaPlayer.reset p = (Returns tt, rewound p).
Proof.
  destruct p as [path c playing paused frame total rate sp th].
  unfold MediaPlayer.reset, MediaPlayer.stop, rewound. unfold_method.
  destruct c; reflexivity.
Qed.

Lemma reset_video_loaded (p : MediaPlayer.state) :
  VideoService.reset_video {| VideoService.media_player := Some p |}
  = (Returns [ ("message", VStr "Video reset to beginning") ],
     {| VideoService.media_player := Some (rewound p) |}).
Proof.
  unfold VideoService.reset_video, VideoService.require_loaded,
    VideoService.on_player. unfold_method.
  cbn [VideoService.media_player]. rewrite player_reset. reflexivity.
Qed.

(** ** Reset *)

(** C10.  On a loaded player [reset_video] returns; afterwards
    [current_frame] is 0, [is_playing] and [is_paused] are false,
    [video_path], [total_frames], [fps] and [speed] are what they were, and
    [get_status] returns with [current_frame] 0 and timestamp
    ["00:00:000"]. *)
Theorem reset_video_rewinds
    (svc : VideoService.state) (p : MediaPlayer.state) :
  VideoService.media_player svc = Some p ->
  exists p',
    VideoService.reset_video svc
    = (Returns [ ("message", VStr "Video reset to beginning") ],
       {| VideoService.media_player := Some p' |})
    /\ MediaPlayer.current_frame p' = 0
    /\ MediaPlayer.is_playing p' = false
    /\ MediaPlayer.is_paused p' = false
    /\ MediaPlayer.video_path p' = MediaPlayer.video_path p
    /\ MediaPlayer.total_frames p' = MediaPlayer.total_frames p
    /\ MediaPlayer.fps p' = MediaPlayer.fps p
    /\ MediaPlayer.speed p' = MediaPlayer.speed p
    /\ exists status,
         VideoService.get_status {| VideoService.media_player := Some p' |}
         = (Returns status, {| VideoService.media_player := Some p' |})
         /\ getitem status "current_frame" = Some (VInt 0)
         /\ getitem status "timestamp" = Some (VStr "00:00:000").
Proof.
  intros Hp. rewrite (service_eta svc p Hp), reset_video_loaded.
  exists (rewound p). repeat (split; [ reflexivity | ]).
  rewrite get_status_loaded.
  rewrite (timestamp_at_frame_0 (rewound p) eq_refl).
  eexists. repeat split.
Qed.

Lemma reset_video_rewinds_witness :
  exists p',
    VideoService.reset_video
      {| VideoService.media_player := Some running_player |}
    = (Returns [ ("message", VStr "Video reset to beginning") ],
       {| VideoService.media_player := Some p' |})
    /\ MediaPlayer.current_frame p' = 0
    /\ MediaPlayer.is_playing p' = false
    /\ MediaPlayer.is_paused p' = false
    /\ MediaPlayer.video_path p' = MediaPlayer.video_path running_player
    /\ MediaPlayer.total_frames p' = MediaPlayer.total_frames running_player
    /\ MediaPlayer.fps p' = MediaPlayer.fps running_player
    /\ MediaPlayer.speed p' = MediaPlayer.speed running_player
    /\ exists status,
         VideoService.get_status {| VideoService.media_player := Some p' |}
         = (Returns status, {| VideoService.media_player := Some p' |})
         /\ getitem status "current_frame" = Some (VInt 0)
         /\ getitem status "timestamp" = Some (VStr "00:00:000").
Proof.
  apply (reset_video_rewinds
           {| VideoService.media_player := Some running_player |}
           running_player).
  reflexivity.
Defined.

(** ** Status *)

(** [get_status] has no handler of its own: on [slow_player], a state
    assigned by hand, the playback time is infinite, [current_time // 60]
    is a NaN, and the [ValueError] of [int] leaves [get_status] as it is.
    This is why the totality of [get_status] is stated of the states a run
    reaches. *)
Lemma get_status_raises_on_loaded_player :
  VideoService.media_player slow_service = Some slow_player
  /\ VideoService.get_status slow_service
     = (Raises (ValueError "cannot convert float NaN to integer"),
        slow_service).
Proof. split; vm_compute; reflexivity. Qed.


(** ** Loading *)

(** C6, as stated, fails: the file exists and the library opens it, yet
    [load_video] raises status 400, because [int] of the frame count raises
    inside [_load_video]. *)
Lemma load_video_raises_on_opened_file :
  os_path_exists nan_count_host "clip.mp4" = true
  /\ isOpened (cv2_VideoCapture nan_count_host "clip.mp4") = true
  /\ VideoService.load_video nan_count_host "clip.mp4" VideoService.__init__
     = (Raises (HTTPException 400
                  (VStr "cannot convert float NaN to integer")),
        VideoService.__init__).
Proof. repeat split; vm_compute; reflexivity. Qed.

Lemma init_opened (host : Host) (path : string) :
  isOpened (cv2_VideoCapture host path) = true ->
  MediaPlayer.__init__ host path
  = match int_of_float (CAP_PROP_FRAME_COUNT (cv2_VideoCapture host path)) with
    | Returns n => Returns (loaded_player path (cv2_VideoCapture host path) n)
    | Raises e => Raises e
    end.
Proof.
  intros Hopen.
  unfold MediaPlayer.__init__, MediaPlayer._load_video. unfold_method.
  cbn. rewrite Hopen. cbn.
  destruct (int_of_float _) as [n | e]; cbn; [ | reflexivity ].
  unfold loaded_player.
  destruct (PyFloat.leb _ _); reflexivity.
Qed.

Lemma init_not_opened (host : Host) (path : string) :
  isOpened (cv2_VideoCapture host path) = false ->
  MediaPlayer.__init__ host path
  = Raises (ValueError ("Could not open video file: " ++ path)).
Proof.
  intros Hopen.
  unfold MediaPlayer.__init__, MediaPlayer._load_video. unfold_method.
  cbn. rewrite Hopen. reflexivity.
Qed.

Lemma load_video_existing (host : Host) (path : string)
    (svc : VideoService.state) :
  os_path_exists host path = true ->
  VideoService.load_video host path svc
  = match MediaPlayer.__init__ host path with
    | Returns p =>
        (Returns [ ("message", VStr "Video loaded successfully");
                   ("path", VStr path) ],
         {| VideoService.media_player := Some p |})
    | Raises e => (Raises (HTTPException 400 (VStr (str_exn e))), svc)
    end.
Proof.
  intros Hexists.
  unfold VideoService.load_video, VideoService.bad_request. unfold_method.
  rewrite Hexists. cbn [negb].
  destruct (MediaPlayer.__init__ host path) as [p | e]; reflexivity.
Qed.

(** C6, amended.  For a path at which a file exists: when the video library
    opens it and reports a frame count that [int] converts (neither NaN nor
    infinite), [load_video] returns the message and the path and installs a
    new player with speed 1.0, not playing, not paused, at frame 0; when
    the library cannot open it, [load_video] raises status 400 and the
    service keeps what it had. *)
Theorem load_video_installs_fresh_player
    (host : Host) (path : string) (svc : VideoService.state) :
  os_path_exists host path = true ->
  (isOpened (cv2_VideoCapture host path) = true ->
   forall n,
     int_of_float (CAP_PROP_FRAME_COUNT (cv2_VideoCapture host path))
     = Returns n ->
     exists p,
       VideoService.load_video host path svc
       = (Returns [ ("message", VStr "Video loaded successfully");
                    ("path", VStr path) ],
          {| VideoService.media_player := Some p |})
       /\ p = loaded_player path (cv2_VideoCapture host path) n
       /\ MediaPlayer.speed p = speed_1_0
       /\ MediaPlayer.is_playing p = false
       /\ MediaPlayer.is_paused p = false
       /\ MediaPlayer.current_frame p = 0)
  /\ (isOpened (cv2_VideoCapture host path) = false ->
      VideoService.load_video host path svc
      = (Raises (HTTPException 400
                   (VStr ("Could not open video file: " ++ path))),
         svc)).
Proof.
  intros Hexists. rewrite (load_video_existing host path svc Hexists).
  split.
  - intros Hopen n Hn. rewrite (init_opened host path Hopen), Hn.
    eexists. repeat split.
  - intros Hopen. rewrite (init_not_opened host path Hopen). reflexivity.
Qed.

Lemma load_video_installs_fresh_player_witness :
  (exists p,
      VideoService.load_video example_host "clip.mp4" VideoService.__init__
      = (Returns [ ("message", VStr "Video loaded successfully");
                   ("path", VStr "clip.mp4") ],
         {| VideoService.media_player := Some p |})
      /\ p = loaded_player "clip.mp4"
               (cv2_VideoCapture example_host "clip.mp4") 900
      /\ MediaPlayer.speed p = speed_1_0
      /\ MediaPlayer.is_playing p = false
      /\ MediaPlayer.is_paused p = false
      /\ MediaPlayer.current_frame p = 0)
  /\ VideoService.load_video example_host "notes.txt" example_service
     = (Raises (HTTPException 400
                  (VStr ("Could not open video file: " ++ "notes.txt"))),
        example_service).
Proof.
  split.
  - apply (proj1 (load_video_installs_fresh_player
                    example_host "clip.mp4" VideoService.__init__ eq_refl)).
    + reflexivity.
    + vm_compute. reflexivity.
  - apply (proj2 (load_video_installs_fresh_player
                    example_host "notes.txt" example_service eq_refl)).
    reflexivity.
Defined.

(** ** Failures *)

Lemma int_of_float_errors (x : float) (e : exn) :
  int_of_float x = Raises e -> arithmetic_error e.
Proof.
  destruct x; cbn; intros [= <-]; eexists; [ right | left ]; reflexivity.
Qed.

Lemma float_of_int_errors (n : Z) (e : exn) :
  float_of_int n = Raises e -> arithmetic_error e.
Proof.
  unfold float_of_int. destruct (PyFloat.is_inf _); intros [= <-].
  eexists. right. reflexivity.
Qed.

Lemma timestamp_errors (p : MediaPlayer.state) (e : exn) :
  fst (MediaPlayer._get_timestamp p) = Raises e -> arithmetic_error e.
Proof.
  unfold MediaPlayer._get_timestamp. unfold_method.
  destruct (PyFloat.ltb _ _) eqn:Hfps; [ | discriminate ].
  destruct (float_of_int _) as [frame | e0] eqn:Hframe;
    [ | intros [= <-]; exact (float_of_int_errors _ _ Hframe) ].
  unfold truediv. rewrite (positive_not_zero _ Hfps).
  unfold floordiv, mod_.
  change (PyFloat.eqb (PyFloat.of_Z 60) PyFloat.zero) with false.
  change (PyFloat.eqb (PyFloat.of_Z 1) PyFloat.zero) with false.
  cbv beta iota.
  repeat match goal with
         | |- fst match ?r with Returns _ => _ | Raises _ => _ end = _ -> _ =>
             let H := fresh "Hint" in
             destruct r eqn:H;
             [ | intros [= <-]; exact (int_of_float_errors _ _ H) ]
         end.
  discriminate.
Qed.




(** On [huge_frame_service], a state assigned by hand, the frame number
    does not convert to a float and the [OverflowError] leaves [get_status]
    as it is, not as an [HTTPException]. *)
Lemma get_status_raises_overflow_error :
  VideoService.get_status huge_frame_service
  = (Raises (OverflowError "int too large to convert to float"),
     huge_frame_service).
Proof. vm_compute. reflexivity. Qed.


(** * Further properties: sessions of calls *)

(** ** The calls on a service that holds a player *)

Lemma pause_video_loaded (p : MediaPlayer.state) :
  VideoService.pause_video {| VideoService.media_player := Some p |}
  = (Returns [ ("message", VStr "Video playback paused") ],
     {| VideoService.media_player := Some (snd (MediaPlayer.pause p)) |}).
Proof.
  unfold VideoService.pause_video, VideoService.require_loaded,
    VideoService.on_player, MediaPlayer.pause. unfold_method.
  cbn. destruct (MediaPlayer.is_playing p); reflexivity.
Qed.

Lemma stop_video_loaded (p : MediaPlayer.state) :
  VideoService.stop_video {| VideoService.media_player := Some p |}
  = (Returns [ ("message", VStr "Video playback stopped") ],
     {| VideoService.media_player := Some (snd (MediaPlayer.stop p)) |}).
Proof. reflexivity. Qed.

Lemma unloaded_call_refused (c : M VideoService.state dict)
    (svc : VideoService.state) :
  VideoService.media_player svc = None ->
  (VideoService.require_loaded ;; c) svc
  = (Raises (HTTPException 400 (VStr "No video loaded")), svc).
Proof.
  intros Hnone. unfold VideoService.require_loaded. unfold_method.
  rewrite Hnone. reflexivity.
Qed.

(** The state a call on a loaded service leaves, by the player method it
    runs. *)
Lemma play_video_state (o : option float) (p : MediaPlayer.state) :
  snd (VideoService.play_video o {| VideoService.media_player := Some p |})
  = {| VideoService.media_player := Some (snd (MediaPlayer.play o p)) |}.
Proof.
  rewrite play_video_loaded.
  destruct (MediaPlayer.play o p) as [[u | e] p']; reflexivity.
Qed.

Lemma set_speed_state (s : float) (p : MediaPlayer.state) :
  snd (VideoService.set_speed s {| VideoService.media_player := Some p |})
  = {| VideoService.media_player := Some (snd (MediaPlayer.set_speed s p)) |}.
Proof.
  rewrite set_speed_loaded.
  destruct (MediaPlayer.set_speed s p) as [[u | e] p']; reflexivity.
Qed.

Lemma get_status_state (svc : VideoService.state) :
  snd (VideoService.get_status svc) = svc.
Proof.
  destruct (VideoService.media_player svc) as [p | ] eqn:Hp.
  - rewrite (service_eta svc p Hp), get_status_loaded.
    destruct (MediaPlayer._get_timestamp p) as [[ts | e] p']; reflexivity.
  - unfold VideoService.get_status. unfold_method. rewrite Hp. reflexivity.
Qed.

(** ** The player's methods run twice *)

Arguments MediaPlayer.contains l x : simpl never.
Arguments str_float_list l : simpl never.

Lemma player_play_state (o : option float) (p : MediaPlayer.state) :
  MediaPlayer.play o p
  = match o with
    | Some s =>
        if MediaPlayer.contains MediaPlayer.VALID_SPEEDS s
        then (Returns tt,
              snd (MediaPlayer.play None (MediaPlayer.assign_speed s p)))
        else (Raises (ValueError
                "Invalid speed. Must be one of: [0.5, 1.0, 2.0, 4.0]"), p)
    | None => (Returns tt, snd (MediaPlayer.play None p))
    end.
Proof.
  destruct o as [s | ].
  - destruct (MediaPlayer.contains MediaPlayer.VALID_SPEEDS s) eqn:Hs.
    + unfold MediaPlayer.play at 1. unfold bind at 1.
      rewrite (player_set_speed_valid s p Hs).
      unfold MediaPlayer.play. unfold_method.
      destruct (MediaPlayer.is_playing _); reflexivity.
    + apply (player_play_invalid s p Hs).
  - unfold MediaPlayer.play. unfold_method.
    destruct (MediaPlayer.is_playing p); reflexivity.
Qed.


(** ** What a call can raise *)

Lemma arithmetic_error_not_http (code : Z) (detail : value) :
  ~ arithmetic_error (HTTPException code detail).
Proof. intros [msg [H | H]]; discriminate. Qed.

Lemma get_status_raises_arithmetic (svc : VideoService.state) (e : exn) :
  fst (VideoService.get_status svc) = Raises e -> arithmetic_error e.
Proof.
  destruct (VideoService.media_player svc) as [p | ] eqn:Hp.
  - rewrite (service_eta svc p Hp), get_status_loaded.
    destruct (MediaPlayer._get_timestamp p) as [[ts | e'] p'] eqn:Hts;
      cbn; [ discriminate | ].
    intros [= <-]. apply (timestamp_errors p). rewrite Hts. reflexivity.
  - unfold VideoService.get_status. unfold_method. rewrite Hp. discriminate.
Qed.

(** X1.  Whatever the host, the call and the state, an [HTTPException] that
    leaves a route has status 400: no endpoint answers 404, the one raised
    for a missing file included. *)
Theorem http_errors_have_status_400
    (host : Host) (c : call) (svc : VideoService.state)
    (code : Z) (detail : value) :
  fst (dispatch host c svc) = Raises (HTTPException code detail) ->
  code = 400.
Proof.
  assert (Hguard : forall k : M VideoService.state dict,
             VideoService.media_player svc = None ->
             fst ((VideoService.require_loaded ;; k) svc)
             = Raises (HTTPException code detail) -> code = 400).
  { intros k Hnone. rewrite (unloaded_call_refused k svc Hnone).
    intros [= <- _]. reflexivity. }
  destruct c as [path | request | | | | request | ];
    cbn [dispatch]; unfold Routes.load_video, Routes.play_video,
      Routes.pause_video, Routes.stop_video, Routes.reset_video,
      Routes.set_speed, Routes.get_status.
  - destruct (os_path_exists host path) eqn:Hexists.
    + rewrite (load_video_existing host path svc Hexists).
      destruct (MediaPlayer.__init__ host path) as [p | e]; cbn;
        [ discriminate | intros [= <- _]; reflexivity ].
    + rewrite (load_video_not_found host path svc Hexists).
      intros [= <- _]. reflexivity.
  - destruct (VideoService.media_player svc) as [p | ] eqn:Hp;
      [ | apply Hguard; reflexivity ].
    rewrite (service_eta svc p Hp), play_video_loaded.
    destruct (MediaPlayer.play _ p) as [[u | e] p']; cbn;
      [ discriminate | intros [= <- _]; reflexivity ].
  - destruct (VideoService.media_player svc) as [p | ] eqn:Hp;
      [ | apply Hguard; reflexivity ].
    rewrite (service_eta svc p Hp), pause_video_loaded. discriminate.
  - destruct (VideoService.media_player svc) as [p | ] eqn:Hp;
      [ | apply Hguard; reflexivity ].
    rewrite (service_eta svc p Hp), stop_video_loaded. discriminate.
  - destruct (VideoService.media_player svc) as [p | ] eqn:Hp;
      [ | apply Hguard; reflexivity ].
    rewrite (service_eta svc p Hp), reset_video_loaded. discriminate.
  - destruct (VideoService.media_player svc) as [p | ] eqn:Hp;
      [ | apply Hguard; reflexivity ].
    rewrite (service_eta svc p Hp), set_speed_loaded.
    destruct (MediaPlayer.contains MediaPlayer.VALID_SPEEDS
                (SpeedRequest.speed request)) eqn:Hs.
    + rewrite (player_set_speed_valid _ p Hs). discriminate.
    + rewrite (player_set_speed_invalid _ p Hs). cbn.
      intros [= <- _]. reflexivity.
  - intros Hraise.
    destruct (arithmetic_error_not_http code detail
                (get_status_raises_arithmetic svc _ Hraise)).
Qed.

Lemma http_errors_have_status_400_witness :
  fst (dispatch example_host (POST_load_video "nowhere.mp4")
         Routes.video_service)
  = Raises (HTTPException 400 (VStr "404: Video file not found"))
  /\ 400 = 400.
Proof.
  split; [ reflexivity | ].
  apply (http_errors_have_status_400 example_host
           (POST_load_video "nowhere.mp4") Routes.video_service
           400 (VStr "404: Video file not found")).
  reflexivity.
Defined.

(** ** What a call leaves alone *)



(** ** Players a session can build *)

Lemma init_well_formed (host : Host) (path : string) (p : MediaPlayer.state) :
  MediaPlayer.__init__ host path = Returns p -> well_formed p = true.
Proof.
  destruct (isOpened (cv2_VideoCapture host path)) eqn:Hopen.
  - rewrite (init_opened host path Hopen).
    destruct (int_of_float _) as [n | e]; [ | discriminate ].
    intros [= <-]. unfold well_formed, loaded_player.
    cbn [MediaPlayer.speed MediaPlayer.fps].
    destruct (PyFloat.leb (CAP_PROP_FPS _) _) eqn:Hfps.
    + vm_compute. reflexivity.
    + rewrite Hfps. vm_compute. reflexivity.
  - rewrite (init_not_opened host path Hopen). discriminate.
Qed.

Lemma dispatch_well_formed (host : Host) (c : call)
    (svc : VideoService.state) :
  service_well_formed svc -> service_well_formed (snd (dispatch host c svc)).
Proof.
  intros Hwf.
  destruct (VideoService.media_player svc) as [p | ] eqn:Hp.
  - specialize (Hwf p Hp). rewrite (service_eta svc p Hp).
    destruct c as [path | [o] | | | | [s] | ];
      cbn [dispatch]; unfold Routes.load_video, Routes.play_video,
        Routes.pause_video, Routes.stop_video, Routes.reset_video,
        Routes.set_speed, Routes.get_status;
      cbn [PlayRequest.speed SpeedRequest.speed].
    + destruct (os_path_exists host path) eqn:Hexists.
      * rewrite (load_video_existing host path _ Hexists).
        destruct (MediaPlayer.__init__ host path) as [q | e] eqn:Hinit;
          intros q' [= <-];
          [ exact (init_well_formed _ _ _ Hinit) | exact Hwf ].
      * rewrite (load_video_not_found host path _ Hexists).
        intros q' [= <-]. exact Hwf.
    + rewrite play_video_state. intros q' [= <-]. revert Hwf.
      unfold well_formed, MediaPlayer.play, MediaPlayer.set_speed.
      unfold_method.
      destruct o as [s | ];
        [ destruct (MediaPlayer.contains MediaPlayer.VALID_SPEEDS s) eqn:Hs | ];
        cbn; try destruct (MediaPlayer.is_playing p); cbn;
        rewrite ?Hs; rewrite ?andb_true_iff; tauto.
    + rewrite pause_video_loaded. intros q' [= <-]. revert Hwf.
      unfold well_formed, MediaPlayer.pause. unfold_method.
      destruct (MediaPlayer.is_playing p); cbn; tauto.
    + rewrite stop_video_loaded. intros q' [= <-]. exact Hwf.
    + rewrite reset_video_loaded. intros q' [= <-]. exact Hwf.
    + rewrite set_speed_state. intros q' [= <-]. revert Hwf.
      unfold well_formed, MediaPlayer.set_speed. unfold_method.
      destruct (MediaPlayer.contains MediaPlayer.VALID_SPEEDS s) eqn:Hs;
        cbn; rewrite ?Hs; rewrite ?andb_true_iff; tauto.
    + rewrite get_status_state. intros q' [= <-]. exact Hwf.
  - clear Hwf.
    destruct c as [path | [o] | | | | [s] | ];
      cbn [dispatch]; unfold Routes.load_video, Routes.play_video,
        Routes.pause_video, Routes.stop_video, Routes.reset_video,
        Routes.set_speed, Routes.get_status;
      unfold VideoService.play_video, VideoService.pause_video,
        VideoService.stop_video, VideoService.reset_video,
        VideoService.set_speed;
      rewrite ?(unloaded_call_refused _ svc Hp);
      try (intros q Hq; cbn in Hq; congruence).
    + destruct (os_path_exists host path) eqn:Hexists.
      * rewrite (load_video_existing host path _ Hexists).
        destruct (MediaPlayer.__init__ host path) as [q | e] eqn:Hinit;
          intros q' Hq'; cbn in Hq'; [ | congruence ].
        injection Hq' as <-. exact (init_well_formed _ _ _ Hinit).
      * rewrite (load_video_not_found host path _ Hexists).
        intros q Hq. cbn in Hq. congruence.
    + rewrite get_status_state. intros q Hq. congruence.
Qed.

Lemma serve_well_formed (session : list (Host * call))
    (svc : VideoService.state) :
  service_well_formed svc -> service_well_formed (snd (serve session svc)).
Proof.
  revert svc. induction session as [ | [host c] rest IH]; intros svc Hwf.
  - exact Hwf.
  - cbn [serve].
    pose proof (dispatch_well_formed host c svc Hwf) as Hstep.
    destruct (dispatch host c svc) as [r svc']. cbn [snd] in Hstep.
    specialize (IH svc' Hstep).
    destruct (serve rest svc') as [rs svc'']. exact IH.
Qed.

(** A frame rate that is not [<= 0] is positive or a NaN. *)
Lemma not_leb_zero (x : float) :
  PyFloat.leb x (PyFloat.of_Z 0) = false ->
  PyFloat.ltb (PyFloat.of_Z 0) x = true \/ x = S754_nan.
Proof.
  destruct x as [s | s | | s m e]; try destruct s; cbn;
    auto; discriminate.
Qed.

(** X3.  Whatever calls a process has served, on whatever hosts, the player
    it holds has one of the four allowed speeds, and a frame rate that is
    positive or a NaN: zero and negative rates were replaced by 30.0 when
    the video was loaded, and no call assigns [fps] or an unchecked
    speed. *)
Theorem served_players_are_well_formed
    (session : list (Host * call)) (p : MediaPlayer.state) :
  VideoService.media_player (snd (serve session Routes.video_service))
  = Some p ->
  allowed_speed (MediaPlayer.speed p)
  /\ (PyFloat.ltb (PyFloat.of_Z 0) (MediaPlayer.fps p) = true
      \/ MediaPlayer.fps p = S754_nan).
Proof.
  intros Hp.
  assert (Hwf : well_formed p = true).
  { apply (serve_well_formed session Routes.video_service); [ | exact Hp ].
    intros q Hq. discriminate. }
  unfold well_formed in Hwf. apply andb_true_iff in Hwf as [Hs Hf].
  split.
  - apply contains_VALID_SPEEDS_iff. exact Hs.
  - apply not_leb_zero. apply negb_true_iff. exact Hf.
Qed.

Lemma served_players_are_well_formed_witness :
  allowed_speed (MediaPlayer.speed example_session_player)
  /\ (PyFloat.ltb (PyFloat.of_Z 0) (MediaPlayer.fps example_session_player)
      = true
      \/ MediaPlayer.fps example_session_player = S754_nan).
Proof.
  apply (served_players_are_well_formed example_session
           example_session_player).
  vm_compute. reflexivity.
Defined.

(** ** Loading again *)

Lemma load_video_cases (host : Host) (path : string)
    (svc : VideoService.state) :
  (exists d p, forall svc',
      VideoService.load_video host path svc'
      = (Returns d, {| VideoService.media_player := Some p |}))
  \/ (exists e, forall svc',
         VideoService.load_video host path svc' = (Raises e, svc')).
Proof.
  destruct (os_path_exists host path) eqn:Hexists.
  - destruct (MediaPlayer.__init__ host path) as [p | e] eqn:Hinit.
    + left. eexists _, p. intros svc'.
      rewrite (load_video_existing host path svc' Hexists), Hinit.
      reflexivity.
    + right. eexists. intros svc'.
      rewrite (load_video_existing host path svc' Hexists), Hinit.
      reflexivity.
  - right. eexists. intros svc'.
    apply (load_video_not_found host path svc' Hexists).
Qed.

(** X4.  [load_video] either raises and leaves the service exactly as it
    was, a player loaded earlier included, or returns and leaves a state
    that owes nothing to the one before: the same response and the same
    new player from every prior state. *)
Theorem load_video_keeps_or_replaces
    (host : Host) (path : string) (svc : VideoService.state) :
  (forall e,
      fst (VideoService.load_video host path svc) = Raises e ->
      snd (VideoService.load_video host path svc) = svc)
  /\ (forall d,
         fst (VideoService.load_video host path svc) = Returns d ->
         forall svc',
           VideoService.load_video host path svc'
           = VideoService.load_video host path svc).
Proof.
  destruct (load_video_cases host path svc) as [(d & p & H) | (e & H)].
  - split.
    + intros e. rewrite (H svc). discriminate.
    + intros d' _ svc'. rewrite (H svc), (H svc'). reflexivity.
  - split.
    + intros e' _. rewrite (H svc). reflexivity.
    + intros d. rewrite (H svc). discriminate.
Qed.

(** ** Calling twice *)




(** ** Pause and resume *)

(** X6.  On a player that is playing and not paused, [pause] followed by
    [play] with no speed gives back the state from before the pause, the
    worker's thread handle included: resuming starts no new worker. *)
Theorem pause_then_play_restores
    (host : Host) (svc : VideoService.state) (p : MediaPlayer.state) :
  VideoService.media_player svc = Some p ->
  MediaPlayer.is_playing p = true ->
  MediaPlayer.is_paused p = false ->
  MediaPlayer.is_paused
    (snd (MediaPlayer.pause p)) = true
  /\ snd (dispatch host (POST_play PlayRequest.default)
            (snd (dispatch host POST_pause svc)))
     = svc.
Proof.
  intros Hp Hplaying Hpaused. rewrite (service_eta svc p Hp).
  cbn [dispatch]. unfold Routes.pause_video, Routes.play_video.
  rewrite pause_video_loaded. cbn [snd PlayRequest.speed PlayRequest.default].
  rewrite play_video_state.
  destruct p as [path c playing paused frame total rate sp th].
  cbn in Hplaying, Hpaused. subst playing paused. split; reflexivity.
Qed.

Lemma pause_then_play_restores_witness :
  MediaPlayer.is_paused
    (snd (MediaPlayer.pause running_player)) = true
  /\ snd (dispatch example_host (POST_play PlayRequest.default)
            (snd (dispatch example_host POST_pause
                    {| VideoService.media_player := Some running_player |})))
     = {| VideoService.media_player := Some running_player |}.
Proof.
  apply (pause_then_play_restores example_host
           {| VideoService.media_player := Some running_player |}
           running_player); reflexivity.
Defined.



(** ** The speed, set and read back *)

(** X8.  After [set_speed(s)] has returned, the speed is read back as [s]:
    [play_video] with no speed answers with speed [s], and [get_status],
    whenever it returns, has [s] under "speed". *)
Theorem set_speed_is_read_back
    (svc : VideoService.state) (p : MediaPlayer.state) (s : float)
    (d : dict) (svc' : VideoService.state) :
  VideoService.media_player svc = Some p ->
  VideoService.set_speed s svc = (Returns d, svc') ->
  (exists svc'',
      VideoService.play_video None svc'
      = (Returns [ ("message", VStr "Video playback started");
                   ("speed", VFloat s) ], svc''))
  /\ (forall status svc'',
         VideoService.get_status svc' = (Returns status, svc'') ->
         getitem status "speed" = Some (VFloat s)).
Proof.
  intros Hp. rewrite (service_eta svc p Hp), set_speed_loaded.
  destruct (MediaPlayer.contains MediaPlayer.VALID_SPEEDS s) eqn:Hs.
  - rewrite (player_set_speed_valid s p Hs). intros [= <- <-]. split.
    + rewrite play_video_loaded, player_play_state.
      unfold MediaPlayer.play. unfold_method. cbn.
      destruct (MediaPlayer.is_playing p); eexists; reflexivity.
    + intros status svc''. rewrite get_status_loaded.
      destruct (MediaPlayer._get_timestamp _) as [[ts | e] q];
        [ | discriminate ].
      intros [= <- _]. reflexivity.
  - rewrite (player_set_speed_invalid s p Hs). discriminate.
Qed.

Lemma set_speed_is_read_back_witness :
  (exists svc'',
      VideoService.play_video None
        (snd (VideoService.set_speed speed_0_5 example_service))
      = (Returns [ ("message", VStr "Video playback started");
                   ("speed", VFloat speed_0_5) ], svc''))
  /\ (forall status svc'',
         VideoService.get_status
           (snd (VideoService.set_speed speed_0_5 example_service))
         = (Returns status, svc'') ->
         getitem status "speed" = Some (VFloat speed_0_5)).
Proof.
  apply (set_speed_is_read_back example_service example_player speed_0_5
           [ ("message", VStr "Speed set to 0.5x");
             ("speed", VFloat speed_0_5) ]
           (snd (VideoService.set_speed speed_0_5 example_service))).
  - reflexivity.
  - vm_compute. reflexivity.
Defined.

(** * Further properties: the worker *)

Arguments Worker._add_overlays : simpl never.
Arguments Worker.frame_delay : simpl never.

Lemma add_overlays_cases (p : MediaPlayer.state) :
  Worker._add_overlays p
  = match fst (MediaPlayer._get_timestamp p) with
    | Returns ts =>
        (Returns [ (ts, (10, 30));
                   (("Speed: " ++ PyFloat.repr (MediaPlayer.speed p)
                     ++ "x")%string, (10, 70)) ], p)
    | Raises e => (Raises e, p)
    end.
Proof.
  unfold Worker._add_overlays. unfold_method.
  pose proof (get_timestamp_reads_only p) as Hsame.
  destruct (MediaPlayer._get_timestamp p) as [[ts | e] p']; cbn in Hsame;
    subst p'; reflexivity.
Qed.

Lemma add_overlays_reads_only (p : MediaPlayer.state) :
  snd (Worker._add_overlays p) = p.
Proof.
  rewrite add_overlays_cases.
  destruct (fst (MediaPlayer._get_timestamp p)); reflexivity.
Qed.

Lemma frame_delay_reads_only (p : MediaPlayer.state) :
  snd (Worker.frame_delay p) = p.
Proof.
  unfold Worker.frame_delay. unfold_method.
  destruct (truediv _ (MediaPlayer.fps p)) as [x | e]; [ | reflexivity ].
  destruct (truediv x _); reflexivity.
Qed.

(** One pass of the loop: the outcomes it can have, and the state each
    leaves. *)
Lemma loop_body_cases (pass : Pass) (p : MediaPlayer.state) :
  let q := MediaPlayer.set_cap (Some (snd (read pass))) p in
  let counted :=
    MediaPlayer.set_current_frame (MediaPlayer.current_frame p + 1) q in
  let quit :=
    existsb (fun item => Z.eqb item (Z.land (waitKey pass) 255)) [113; 27] in
  Worker.loop_body pass p
  = if MediaPlayer.is_paused p then
      match sleep pass Worker.tenth with
      | Returns _ => (Returns Worker.Continue, p)
      | Raises e => (Raises e, p)
      end
    else if negb (fst (read pass)) then (Returns Worker.Break, q)
    else
      match fst (Worker._add_overlays q) with
      | Raises e => (Raises e, q)
      | Returns _ =>
          match fst (Worker.frame_delay q) with
          | Raises e => (Raises e, q)
          | Returns delay =>
              match sleep pass delay with
              | Raises e => (Raises e, q)
              | Returns _ =>
                  (Returns (if quit then Worker.Break else Worker.Continue),
                   counted)
              end
          end
      end.
Proof.
  intros q counted quit. unfold Worker.loop_body. unfold_method.
  destruct (MediaPlayer.is_paused p).
  - destruct (sleep pass Worker.tenth); reflexivity.
  - fold q. destruct (negb (fst (read pass))); [ reflexivity | ].
    pose proof (add_overlays_reads_only q) as Hov.
    destruct (Worker._add_overlays q) as [[ov | e] q1]; cbn in Hov; subst q1;
      [ | reflexivity ].
    pose proof (frame_delay_reads_only q) as Hfd.
    destruct (Worker.frame_delay q) as [[delay | e] q2]; cbn in Hfd; subst q2;
      [ | reflexivity ].
    cbn [fst]. destruct (sleep pass delay); [ | reflexivity ].
    subst counted quit. unfold q at 2.
    destruct (existsb _ _); reflexivity.
Qed.

Lemma loop_body_keeps (pass : Pass) (p : MediaPlayer.state) :
  let p' := snd (Worker.loop_body pass p) in
  worker_keeps p p'
  /\ MediaPlayer.is_playing p' = MediaPlayer.is_playing p
  /\ MediaPlayer.current_frame p <= MediaPlayer.current_frame p'
     <= MediaPlayer.current_frame p + 1.
Proof.
  rewrite loop_body_cases. unfold worker_keeps.
  destruct (MediaPlayer.is_paused p) eqn:Hpaused;
    [ destruct (sleep pass Worker.tenth) | ];
    [ | | destruct (negb (fst (read pass))) ];
    [ | | | destruct (fst (Worker._add_overlays _)) ];
    [ | | | destruct (fst (Worker.frame_delay _)) | ];
    [ | | | destruct (sleep pass _) | | ];
    cbn; repeat split; auto; lia.
Qed.

(** X9.  However many passes the worker makes and whatever it meets, it
    leaves the player's path, frame count, frame rate, speed, pause flag
    and thread handle as they were, and [current_frame] where it was or
    further on, by at most one frame for each pass. *)
Theorem worker_only_counts_frames
    (passes : list Pass) (p : MediaPlayer.state) :
  let p' := snd (Worker._play_video passes p) in
  worker_keeps p p'
  /\ MediaPlayer.current_frame p <= MediaPlayer.current_frame p'
     <= MediaPlayer.current_frame p + Z.of_nat (List.length passes).
Proof.
  revert p. induction passes as [ | pass rest IH]; intros p.
  - cbn. destruct (Worker.loop_test p); cbn; unfold worker_keeps;
      repeat split; lia.
  - cbn [Worker._play_video].
    change (List.length (pass :: rest)) with (S (List.length rest)).
    destruct (Worker.loop_test p).
    + pose proof (loop_body_keeps pass p) as (Hkeep & _ & Hframe).
      destruct (Worker.loop_body pass p) as [[[ | ] | e] q];
        cbn [snd] in *.
      * specialize (IH q). cbn zeta in IH.
        destruct IH as (Hkeep' & Hframe').
        unfold worker_keeps in *.
        repeat split; try lia;
          (etransitivity; [ apply Hkeep' | apply Hkeep ]).
      * cbn. unfold worker_keeps in *. repeat split; try apply Hkeep; lia.
      * unfold worker_keeps in *. repeat split; try apply Hkeep; lia.
    + cbn. unfold worker_keeps. repeat split; lia.
Qed.

(** X10.  While the player is paused, playing and its capture open, the
    worker changes nothing at all, however many passes it makes and
    whatever [time.sleep] does; when [time.sleep(0.1)] returns each time,
    it is still in its loop after the last pass. *)
Theorem paused_worker_changes_nothing
    (passes : list Pass) (p : MediaPlayer.state) :
  Worker.loop_test p = true ->
  MediaPlayer.is_paused p = true ->
  snd (Worker._play_video passes p) = p
  /\ (Forall (fun pass => sleep pass Worker.tenth = Returns tt) passes ->
      Worker._play_video passes p = (Returns Worker.Running, p)).
Proof.
  intros Htest Hpaused. induction passes as [ | pass rest [IHstate IHrun]].
  - cbn. rewrite Htest. split; reflexivity.
  - cbn [Worker._play_video]. rewrite Htest, loop_body_cases, Hpaused.
    split.
    + destruct (sleep pass Worker.tenth); [ exact IHstate | reflexivity ].
    + intros Hall. inversion Hall as [ | pass' rest' Hsleep Hrest ]; subst.
      rewrite Hsleep. exact (IHrun Hrest).
Qed.

Lemma paused_worker_changes_nothing_witness :
  snd (Worker._play_video [quiet_pass; quiet_pass; quiet_pass] paused_player)
  = paused_player
  /\ (Forall (fun pass => sleep pass Worker.tenth = Returns tt)
        [quiet_pass; quiet_pass; quiet_pass] ->
      Worker._play_video [quiet_pass; quiet_pass; quiet_pass] paused_player
      = (Returns Worker.Running, paused_player)).
Proof.
  apply (paused_worker_changes_nothing
           [quiet_pass; quiet_pass; quiet_pass] paused_player); reflexivity.
Defined.

Lemma worker_raises_in_loop (passes : list Pass) (p : MediaPlayer.state)
    (e : exn) :
  fst (Worker._play_video passes p) = Raises e ->
  MediaPlayer.is_playing (snd (Worker._play_video passes p)) = true.
Proof.
  revert p. induction passes as [ | pass rest IH]; intros p.
  - cbn. destruct (Worker.loop_test p); discriminate.
  - cbn [Worker._play_video].
    destruct (Worker.loop_test p) eqn:Htest; [ | discriminate ].
    pose proof (loop_body_keeps pass p) as (_ & Hplaying & _).
    destruct (Worker.loop_body pass p) as [[[ | ] | e'] q]; cbn [snd] in *.
    + apply IH.
    + discriminate.
    + intros _. rewrite Hplaying.
      unfold Worker.loop_test in Htest. apply andb_true_iff in Htest.
      apply Htest.
Qed.

(** X11.  When the worker ends on an exception, [is_playing] stays set:
    only the code after the loop clears it.  On the state this leaves,
    [play] starts no new worker, with or without a speed. *)
Theorem dead_worker_is_not_restarted
    (passes : list Pass) (p : MediaPlayer.state) (e : exn) :
  fst (Worker._play_video passes p) = Raises e ->
  let p' := snd (Worker._play_video passes p) in
  MediaPlayer.is_playing p' = true
  /\ forall o,
       MediaPlayer.play_thread (snd (MediaPlayer.play o p'))
       = MediaPlayer.play_thread p'.
Proof.
  intros Hraise p'. pose proof (worker_raises_in_loop passes p e Hraise) as Hp.
  fold p' in Hp. split; [ exact Hp | ].
  intros o. unfold MediaPlayer.play, MediaPlayer.set_speed. unfold_method.
  destruct o as [s | ];
    [ destruct (MediaPlayer.contains MediaPlayer.VALID_SPEEDS s) | ];
    cbn; rewrite ?Hp; reflexivity.
Qed.

Lemma dead_worker_is_not_restarted_witness :
  let p' := snd (Worker._play_video [failing_pass] running_player) in
  MediaPlayer.is_playing p' = true
  /\ forall o,
       MediaPlayer.play_thread (snd (MediaPlayer.play o p'))
       = MediaPlayer.play_thread p'.
Proof.
  apply (dead_worker_is_not_restarted [failing_pass] running_player
           (ValueError "sleep length must be non-negative")).
  vm_compute. reflexivity.
Defined.

(** X12.  [stop] ends the worker: on the state [stop] leaves, the worker
    is at the end of its loop whatever passes remain, and leaves that
    state as it is; so does any worker whose player is not playing or has
    no open capture, clearing [is_playing] and nothing else. *)
Theorem stopped_worker_finishes
    (passes : list Pass) (p : MediaPlayer.state) :
  Worker._play_video passes (snd (MediaPlayer.stop p))
  = (Returns Worker.Finished, snd (MediaPlayer.stop p))
  /\ (Worker.loop_test p = false ->
      Worker._play_video passes p
      = (Returns Worker.Finished, MediaPlayer.set_is_playing false p)).
Proof.
  split.
  - destruct passes; reflexivity.
  - intros Htest. destruct passes; cbn; rewrite Htest; reflexivity.
Qed.

(** The key test: [key & 0xFF in [ord('q'), 27]]. *)
Lemma quit_key_iff (k : Z) :
  existsb (fun item => Z.eqb item (Z.land k 255)) [113; 27] = true
  <-> (k mod 256 = 113 \/ k mod 256 = 27).
Proof.
  change 255 with (Z.ones 8). rewrite Z.land_ones by lia.
  change (2 ^ 8) with 256. unfold existsb.
  rewrite !orb_true_iff, !Z.eqb_eq. intuition (try discriminate; lia).
Qed.

(** X13.  On a pass that is not paused: when [cap.read()] gives no frame
    the loop is left and no frame counted; when the pass gets to its end,
    exactly one frame is counted, and the loop is left exactly when the
    low byte of the key is 113 ([q]) or 27 (ESC), whatever the higher
    bits. *)
Theorem pass_counts_one_frame_and_reads_key
    (pass : Pass) (p p' : MediaPlayer.state) (ctl : Worker.control) :
  MediaPlayer.is_paused p = false ->
  Worker.loop_body pass p = (Returns ctl, p') ->
  (fst (read pass) = false ->
   ctl = Worker.Break
   /\ MediaPlayer.current_frame p' = MediaPlayer.current_frame p)
  /\ (fst (read pass) = true ->
      MediaPlayer.current_frame p' = MediaPlayer.current_frame p + 1
      /\ (ctl = Worker.Break
          <-> (waitKey pass mod 256 = 113 \/ waitKey pass mod 256 = 27))).
Proof.
  intros Hpaused. rewrite loop_body_cases, Hpaused.
  pose proof (quit_key_iff (waitKey pass)) as Hkey.
  destruct (existsb _ [113; 27]) eqn:Hquit.
  - destruct (fst (read pass)); cbn [negb].
    + destruct (fst (Worker._add_overlays _)); [ | discriminate ].
      destruct (fst (Worker.frame_delay _)); [ | discriminate ].
      destruct (sleep pass _); [ | discriminate ].
      intros [= <- <-]. split; [ discriminate | intros _ ].
      split; [ reflexivity | ]. tauto.
    + intros [= <- <-]. split; [ intros _ | discriminate ].
      split; reflexivity.
  - destruct (fst (read pass)); cbn [negb].
    + destruct (fst (Worker._add_overlays _)); [ | discriminate ].
      destruct (fst (Worker.frame_delay _)); [ | discriminate ].
      destruct (sleep pass _); [ | discriminate ].
      intros [= <- <-]. split; [ discriminate | intros _ ].
      split; [ reflexivity | ].
      split; [ discriminate | ].
      intros Hk. apply Hkey in Hk. discriminate.
    + intros [= <- <-]. split; [ intros _ | discriminate ].
      split; reflexivity.
Qed.

Lemma pass_counts_one_frame_and_reads_key_witness :
  (fst (read quit_pass) = false ->
   Worker.Break = Worker.Break
   /\ MediaPlayer.current_frame
        (snd (Worker.loop_body quit_pass running_player))
      = MediaPlayer.current_frame running_player)
  /\ (fst (read quit_pass) = true ->
      MediaPlayer.current_frame
        (snd (Worker.loop_body quit_pass running_player))
      = MediaPlayer.current_frame running_player + 1
      /\ (Worker.Break = Worker.Break
          <-> (waitKey quit_pass mod 256 = 113
               \/ waitKey quit_pass mod 256 = 27))).
Proof.
  apply (pass_counts_one_frame_and_reads_key quit_pass running_player).
  - reflexivity.
  - vm_compute. reflexivity.
Defined.

(** ** The frame delay and the overlays *)

Lemma not_leb_zero_not_zero (x : float) :
  PyFloat.leb x (PyFloat.of_Z 0) = false -> PyFloat.eqb x PyFloat.zero = false.
Proof. destruct x as [s | s | | s m e]; try destruct s; cbn; congruence. Qed.

Lemma allowed_speed_not_zero (s : float) :
  allowed_speed s -> PyFloat.eqb s PyFloat.zero = false.
Proof. intros [-> | [-> | [-> | ->]]]; reflexivity. Qed.

Lemma frame_delay_well_formed (p : MediaPlayer.state) :
  well_formed p = true ->
  Worker.frame_delay p
  = (Returns (PyFloat.div (PyFloat.div (PyFloat.of_Z 1) (MediaPlayer.fps p))
                (MediaPlayer.speed p)), p).
Proof.
  unfold well_formed. rewrite andb_true_iff, negb_true_iff.
  intros [Hs Hf]. apply contains_VALID_SPEEDS_iff in Hs.
  unfold Worker.frame_delay, truediv. unfold_method.
  rewrite (not_leb_zero_not_zero _ Hf), (allowed_speed_not_zero _ Hs).
  reflexivity.
Qed.

(** X14.  On every player a session of calls can have built, the worker's
    frame delay [(1.0 / self.fps) / self.speed] is computed without a
    [ZeroDivisionError]: neither [fps] nor [speed] can be zero there. *)
Theorem frame_delay_never_divides_by_zero
    (session : list (Host * call)) (p : MediaPlayer.state) :
  VideoService.media_player (snd (serve session Routes.video_service))
  = Some p ->
  Worker.frame_delay p
  = (Returns (PyFloat.div (PyFloat.div (PyFloat.of_Z 1) (MediaPlayer.fps p))
                (MediaPlayer.speed p)), p).
Proof.
  intros Hp. apply frame_delay_well_formed.
  apply (serve_well_formed session Routes.video_service); [ | exact Hp ].
  intros q Hq. discriminate.
Qed.

Lemma frame_delay_never_divides_by_zero_witness :
  Worker.frame_delay example_session_player
  = (Returns (PyFloat.div
                (PyFloat.div (PyFloat.of_Z 1)
                   (MediaPlayer.fps example_session_player))
                (MediaPlayer.speed example_session_player)),
     example_session_player).
Proof.
  apply (frame_delay_never_divides_by_zero example_session
           example_session_player).
  vm_compute. reflexivity.
Defined.

Lemma repr_allowed_speed (s : float) :
  allowed_speed s -> In (PyFloat.repr s) [ "0.5"; "1.0"; "2.0"; "4.0" ].
Proof.
  intros [-> | [-> | [-> | ->]]]; vm_compute; tauto.
Qed.

(** X15.  On a player with an allowed speed, what [_add_overlays] draws is
    the timestamp at (10, 30), the same string [get_status] reports under
    "timestamp", and at (10, 70) one of "Speed: 0.5x", "Speed: 1.0x",
    "Speed: 2.0x" and "Speed: 4.0x"; it raises exactly when [get_status]
    does. *)
Theorem overlays_agree_with_status (p : MediaPlayer.state) :
  allowed_speed (MediaPlayer.speed p) ->
  (forall overlays,
      fst (Worker._add_overlays p) = Returns overlays ->
      exists ts label status,
        overlays = [ (ts, (10, 30));
                     (("Speed: " ++ label ++ "x")%string, (10, 70)) ]
        /\ In label [ "0.5"; "1.0"; "2.0"; "4.0" ]
        /\ fst (MediaPlayer.get_status p) = Returns status
        /\ getitem status "timestamp" = Some (VStr ts))
  /\ (forall e,
         fst (Worker._add_overlays p) = Raises e
         <-> fst (MediaPlayer.get_status p) = Raises e).
Proof.
  intros Hspeed. rewrite add_overlays_cases, player_get_status.
  destruct (MediaPlayer._get_timestamp p) as [[ts | e] q]; cbn [fst]; split.
  - intros overlays [= <-].
    exists ts, (PyFloat.repr (MediaPlayer.speed p)), (status_fields p ts).
    repeat split. apply repr_allowed_speed. exact Hspeed.
  - intros e. split; discriminate.
  - discriminate.
  - intros e'. split; intros [= <-]; reflexivity.
Qed.

Lemma overlays_agree_with_status_witness :
  (forall overlays,
      fst (Worker._add_overlays running_player) = Returns overlays ->
      exists ts label status,
        overlays = [ (ts, (10, 30));
                     (("Speed: " ++ label ++ "x")%string, (10, 70)) ]
        /\ In label [ "0.5"; "1.0"; "2.0"; "4.0" ]
        /\ fst (MediaPlayer.get_status running_player) = Returns status
        /\ getitem status "timestamp" = Some (VStr ts))
  /\ (forall e,
         fst (Worker._add_overlays running_player) = Raises e
         <-> fst (MediaPlayer.get_status running_player) = Raises e).
Proof.
  apply (overlays_agree_with_status running_player).
  vm_compute. tauto.
Defined.

(** * Further properties: the settings *)

(** X16.  The address the server binds: ("0.0.0.0", 8000) when
    [config.json] is missing or has no "backend" entry; with a "backend"
    object, its "host" and its "port", each replaced by its default
    separately when absent, and passed on as it is when present, whatever
    its JSON type, [null] included. *)
Theorem bind_address_defaults :
  startup FileNotFoundError = Returns (JStr "0.0.0.0", JInt 8000)
  /\ (forall items,
         lookup items "backend" = None ->
         startup (Parsed (JDict items)) = Returns (JStr "0.0.0.0", JInt 8000))
  /\ (forall items backend,
         lookup items "backend" = Some (JDict backend) ->
         startup (Parsed (JDict items))
         = Returns (match lookup backend "host" with
                    | Some host => host
                    | None => JStr "0.0.0.0"
                    end,
                    match lookup backend "port" with
                    | Some port => port
                    | None => JInt 8000
                    end)).
Proof.
  split; [ reflexivity | split ].
  - intros items Hnone.
    unfold startup, bind_address, Settings.get, dot_get, and_then. cbn.
    rewrite Hnone. reflexivity.
  - intros items backend Hsome.
    unfold startup, bind_address, Settings.get, dot_get, and_then. cbn.
    rewrite Hsome. reflexivity.
Qed.

Lemma dot_get_not_dict (v : json) (key : string) (default : json) :
  is_dict v = false -> dot_get v key default = Raises (no_get v).
Proof. destruct v; cbn; intros H; try reflexivity; discriminate. Qed.

(** X17.  What precedes the call of [uvicorn.run], the import of
    [settings] and the lookups of [main.py], fails in exactly these cases:
    [config.json] is not valid JSON ([ValueError] "Invalid JSON in
    config.json"); opening or parsing it raises an exception other than
    [FileNotFoundError] and [JSONDecodeError], which leaves [_load_config]
    and the import as it is; its top level is not an object; or it has a
    "backend" entry that is not an object, [null] included, the default
    [{}] standing in only for an absent key (both [AttributeError], for
    the [get] that the value lacks). *)
Theorem startup_fails_iff (file : config_file) (e : exn) :
  startup file = Raises e
  <-> (file = JSONDecodeError /\ e = ValueError "Invalid JSON in config.json")
      \/ file = Raised e
      \/ (exists v, file = Parsed v /\ is_dict v = false /\ e = no_get v)
      \/ (exists items v,
             file = Parsed (JDict items)
             /\ lookup items "backend" = Some v
             /\ is_dict v = false /\ e = no_get v).
Proof.
  split.
  - destruct file as [ | | e0 | v].
    + discriminate.
    + intros [= <-]. left. split; reflexivity.
    + intros [= <-]. right. left. reflexivity.
    + destruct (is_dict v) eqn:Hv.
      * destruct v as [ | | | | | | items]; try discriminate.
        unfold startup, bind_address, Settings.get, and_then. cbn.
        destruct (lookup items "backend") as [b | ] eqn:Hb;
          [ | discriminate ].
        destruct (is_dict b) eqn:Hdict.
        -- destruct b; discriminate.
        -- rewrite (dot_get_not_dict b _ _ Hdict). intros [= <-].
           right. right. right. exists items, b. repeat split; assumption.
      * unfold startup, bind_address, Settings.get, and_then. cbn.
        rewrite (dot_get_not_dict v _ _ Hv). intros [= <-].
        right. right. left. exists v. repeat split. exact Hv.
  - intros [[-> ->] | [-> | [(v & -> & Hv & ->)
                            | (items & v & -> & Hb & Hv & ->)]]].
    + reflexivity.
    + reflexivity.
    + unfold startup, bind_address, Settings.get, and_then. cbn.
      rewrite (dot_get_not_dict v _ _ Hv). reflexivity.
    + unfold startup, bind_address, Settings.get, and_then. cbn.
      rewrite Hb, (dot_get_not_dict v _ _ Hv). reflexivity.
Qed.

Lemma startup_fails_iff_witness :
  startup (Parsed (JDict [ ("backend", JNull) ]))
  = Raises (AttributeError "'NoneType' object has no attribute 'get'")
  /\ startup (Raised (OtherError "PermissionError"
                        "[Errno 13] Permission denied: 'config.json'"))
     = Raises (OtherError "PermissionError"
                 "[Errno 13] Permission denied: 'config.json'").
Proof.
  split.
  - apply (proj2 (startup_fails_iff
                    (Parsed (JDict [ ("backend", JNull) ]))
                    (no_get JNull))).
    right. right. right. exists [ ("backend", JNull) ], JNull.
    repeat split.
  - apply (proj2 (startup_fails_iff
                    (Raised (OtherError "PermissionError"
                               "[Errno 13] Permission denied: 'config.json'"))
                    (OtherError "PermissionError"
                       "[Errno 13] Permission denied: 'config.json'"))).
    right. left. reflexivity.
Defined.

(** * Further properties: sessions without a video, the end of the worker *)

Lemma dispatch_unloaded (host : Host) (c : call) (svc : VideoService.state) :
  VideoService.media_player svc = None ->
  is_load c = false ->
  dispatch host c svc = (unloaded_response c, svc).
Proof.
  intros Hnone Hc.
  destruct c as [path | [o] | | | | [s] | ]; try discriminate;
    cbn [dispatch unloaded_response];
    unfold Routes.play_video, Routes.pause_video, Routes.stop_video,
      Routes.reset_video, Routes.set_speed, Routes.get_status,
      VideoService.play_video, VideoService.pause_video,
      VideoService.stop_video, VideoService.reset_video,
      VideoService.set_speed;
    rewrite ?(unloaded_call_refused _ svc Hnone); try reflexivity.
  unfold VideoService.get_status. unfold_method. rewrite Hnone. reflexivity.
Qed.

(** X18.  A session in which [load_video] is never called leaves the
    service without a player, whatever else is called and however often:
    every [get_status] in it answers [{"loaded": False}] and every other
    call raises status 400 "No video loaded". *)
Theorem session_without_load_stays_unloaded (session : list (Host * call)) :
  forallb (fun step => negb (is_load (snd step))) session = true ->
  serve session Routes.video_service
  = (map (fun step => unloaded_response (snd step)) session,
     Routes.video_service).
Proof.
  generalize Routes.video_service (eq_refl :
    VideoService.media_player Routes.video_service = None).
  induction session as [ | [host c] rest IH]; intros svc Hnone Hall.
  - reflexivity.
  - cbn [forallb snd] in Hall. apply andb_true_iff in Hall as [Hc Hrest].
    apply negb_true_iff in Hc.
    cbn [serve map snd]. rewrite (dispatch_unloaded host c svc Hnone Hc).
    rewrite (IH svc Hnone Hrest). reflexivity.
Qed.

Lemma session_without_load_stays_unloaded_witness :
  serve idle_session Routes.video_service
  = (map (fun step => unloaded_response (snd step)) idle_session,
     Routes.video_service).
Proof.
  apply (session_without_load_stays_unloaded idle_session). reflexivity.
Defined.

(** X19.  [__del__] ends the worker: on the state it leaves, with the
    capture released or absent, the worker is at the end of its loop
    whatever passes remain, and clears [is_playing]. *)
Theorem del_ends_the_worker (passes : list Pass) (p : MediaPlayer.state) :
  Worker._play_video passes (snd (Worker.__del__ p))
  = (Returns Worker.Finished,
     MediaPlayer.set_is_playing false (snd (Worker.__del__ p))).
Proof.
  assert (Htest : Worker.loop_test (snd (Worker.__del__ p)) = false).
  { unfold Worker.__del__, Worker.loop_test. unfold_method.
    destruct (MediaPlayer.cap p) as [c | ] eqn:Hc; cbn;
      rewrite ?Hc; apply andb_false_r. }
  destruct passes; cbn [Worker._play_video]; rewrite Htest; reflexivity.
Qed.

(** The worker's end and [is_playing]: when the worker has left its
    loop, [is_playing] is false; when it is still in its loop after the
    passes given, the player is playing and its capture open. *)
Lemma worker_status_and_flag (passes : list Pass) (p : MediaPlayer.state) :
  (fst (Worker._play_video passes p) = Returns Worker.Finished ->
   MediaPlayer.is_playing (snd (Worker._play_video passes p)) = false)
  /\ (fst (Worker._play_video passes p) = Returns Worker.Running ->
      Worker.loop_test (snd (Worker._play_video passes p)) = true).
Proof.
  revert p. induction passes as [ | pass rest IH]; intros p.
  - cbn. destruct (Worker.loop_test p) eqn:Htest; cbn;
      split; try discriminate; auto.
  - cbn [Worker._play_video].
    destruct (Worker.loop_test p) eqn:Htest;
      [ | cbn; split; [ reflexivity | discriminate ] ].
    destruct (Worker.loop_body pass p) as [[[ | ] | e] q].
    + apply IH.
    + cbn. split; [ reflexivity | discriminate ].
    + cbn. split; discriminate.
Qed.
(** * The status on the states a run reaches

    [get_status] is the one operation without a handler: what the
    timestamp arithmetic raises leaves it as it is.  The arithmetic raises
    when the frame number does not convert to a float or the playback time
    [current_frame / fps] is infinite.  On the states a run reaches neither
    happens: the worker counts a frame only after [time.sleep] has returned
    on the frame delay [(1.0 / fps) / speed], which bounds [fps] from below.
    The section follows the magnitude of the floats through the
    arithmetic: the rounding of the Standard Library's [SpecFloat], the
    operators, [%] and [//], the timestamp. *)

(** ** Sizes of mantissas *)

Lemma digits2_pos_size (p : positive) : digits2_pos p = Pos.size p.
Proof. induction p; simpl; congruence. Qed.

Lemma Zdigits2_log2 (m : Z) : 0 < m -> Zdigits2 m = Z.log2 m + 1.
Proof.
  destruct m as [ | p | p ]; try lia. intros _. simpl.
  rewrite digits2_pos_size. destruct p; simpl; lia.
Qed.

Lemma Zdigits2_opp (m : Z) : Zdigits2 (- m) = Zdigits2 m.
Proof. destruct m; reflexivity. Qed.

Lemma Zdigits2_nonneg (m : Z) : 0 <= Zdigits2 m.
Proof. destruct m; simpl; lia. Qed.

Lemma Zdigits2_pos (m : Z) : m <> 0 -> 1 <= Zdigits2 m.
Proof. destruct m; simpl; lia. Qed.

(** [Zdigits2 m <= k] says [|m| < 2^k]. *)
Lemma Zdigits2_le (m k : Z) :
  0 <= k -> Z.abs m < 2 ^ k -> Zdigits2 m <= k.
Proof.
  intros Hk Hm. destruct (Z.eq_dec m 0) as [-> | Hnz]; [ simpl; lia | ].
  assert (Hd : Zdigits2 m = Zdigits2 (Z.abs m)).
  { destruct m; reflexivity. }
  rewrite Hd, Zdigits2_log2 by lia.
  apply Z.log2_lt_pow2 in Hm; lia.
Qed.

Lemma Zdigits2_gt (m : Z) : Z.abs m < 2 ^ Zdigits2 m.
Proof.
  destruct (Z.eq_dec m 0) as [-> | Hnz]; [ simpl; lia | ].
  assert (Hd : Zdigits2 m = Zdigits2 (Z.abs m)).
  { destruct m; reflexivity. }
  rewrite Hd, Zdigits2_log2 by lia.
  apply Z.log2_spec. lia.
Qed.

Lemma Zdigits2_ge (m k : Z) :
  2 ^ (k - 1) <= Z.abs m -> m <> 0 -> k <= Zdigits2 m.
Proof.
  intros Hm Hnz.
  assert (Hd : Zdigits2 m = Zdigits2 (Z.abs m)).
  { destruct m; reflexivity. }
  rewrite Hd, Zdigits2_log2 by lia.
  apply Z.log2_le_pow2 in Hm; lia.
Qed.

Lemma Zdigits2_lower (m : Z) : m <> 0 -> 2 ^ (Zdigits2 m - 1) <= Z.abs m.
Proof.
  intros Hnz.
  assert (Hd : Zdigits2 m = Zdigits2 (Z.abs m)).
  { destruct m; reflexivity. }
  rewrite Hd, Zdigits2_log2 by lia.
  replace (Z.log2 (Z.abs m) + 1 - 1) with (Z.log2 (Z.abs m)) by lia.
  apply Z.log2_spec. lia.
Qed.

Lemma Zdigits2_mono (a b : Z) : Z.abs a <= Z.abs b -> Zdigits2 a <= Zdigits2 b.
Proof.
  intros Hab. apply Zdigits2_le; [ apply Zdigits2_nonneg | ].
  pose proof (Zdigits2_gt b). lia.
Qed.

Lemma Zdigits2_succ (a : Z) : 0 <= a -> Zdigits2 (a + 1) <= Zdigits2 a + 1.
Proof.
  intros Ha. pose proof (Zdigits2_nonneg a) as Hn.
  apply Zdigits2_le; [ lia | ].
  pose proof (Zdigits2_gt a) as Hgt.
  rewrite Z.pow_add_r by lia. change (2 ^ 1) with 2.
  assert (0 < 2 ^ Zdigits2 a) by (apply Z.pow_pos_nonneg; lia).
  lia.
Qed.

Lemma Zdigits2_mul_pow2 (m k : Z) :
  m <> 0 -> 0 <= k -> Zdigits2 (m * 2 ^ k) = Zdigits2 m + k.
Proof.
  intros Hm Hk.
  assert (Hd : forall x, Zdigits2 x = Zdigits2 (Z.abs x)).
  { intros x; destruct x; reflexivity. }
  assert (Hpow : 0 < 2 ^ k) by (apply Z.pow_pos_nonneg; lia).
  rewrite (Hd (m * 2 ^ k)), (Hd m), Z.abs_mul, (Z.abs_eq (2 ^ k)) by lia.
  rewrite !Zdigits2_log2 by nia.
  rewrite Z.log2_mul_pow2 by lia. lia.
Qed.

Lemma Zdigits2_div_pow2 (m k : Z) :
  0 <= m -> 0 <= k -> Zdigits2 (m / 2 ^ k) = Z.max (Zdigits2 m - k) 0.
Proof.
  intros Hm Hk.
  assert (Hpow : 0 < 2 ^ k) by (apply Z.pow_pos_nonneg; lia).
  destruct (Z.eq_dec m 0) as [-> | Hnz].
  { rewrite Z.div_0_l by lia. simpl. lia. }
  rewrite <- Z.shiftr_div_pow2 by lia.
  destruct (Z.eq_dec (Z.shiftr m k) 0) as [Hz | Hq].
  - rewrite Hz. simpl.
    rewrite Z.shiftr_div_pow2 in Hz by lia.
    apply Z.div_small_iff in Hz; [ | lia ].
    assert (Zdigits2 m <= k) by (apply Zdigits2_le; lia). lia.
  - assert (0 <= Z.shiftr m k) by (apply Z.shiftr_nonneg; lia).
    rewrite !Zdigits2_log2 by lia.
    rewrite Z.log2_shiftr by lia.
    assert (k <= Z.log2 m).
    { apply Z.log2_le_pow2; [ lia | ].
      rewrite Z.shiftr_div_pow2 in Hq by lia.
      destruct (Z_lt_le_dec m (2 ^ k)) as [Hlt | Hle]; [ | exact Hle ].
      rewrite Z.div_small in Hq by lia. congruence. }
    lia.
Qed.

(** ** Shifting right and rounding *)

Lemma shr_m_of_loc (m : Z) (l : location) : shr_m (shr_record_of_loc m l) = m.
Proof. destruct l as [ | [ | | ]]; reflexivity. Qed.

Lemma shr_1_m (mrs : shr_record) :
  0 <= shr_m mrs -> shr_m (shr_1 mrs) = shr_m mrs / 2.
Proof.
  destruct mrs as [m r s]. cbn [shr_m]. intros Hm.
  rewrite <- Z.div2_div.
  destruct m as [ | [p | p | ] | p]; try reflexivity; lia.
Qed.

Lemma iter_pos_shr_1_m (n : positive) (mrs : shr_record) :
  0 <= shr_m mrs ->
  shr_m (iter_pos shr_1 n mrs) = shr_m mrs / 2 ^ Zpos n.
Proof.
  revert mrs.
  induction n as [n IH | n IH | ]; intros mrs Hm; cbn [iter_pos].
  - assert (H1 : 0 <= shr_m (shr_1 mrs)).
    { rewrite shr_1_m by exact Hm. apply Z.div_pos; lia. }
    assert (H2 : 0 <= shr_m (iter_pos shr_1 n (shr_1 mrs))).
    { rewrite IH by exact H1. apply Z.div_pos; [ lia | ].
      apply Z.pow_pos_nonneg; lia. }
    rewrite IH by exact H2. rewrite IH by exact H1.
    rewrite shr_1_m by exact Hm.
    assert (Hpow : 0 < 2 ^ Zpos n) by (apply Z.pow_pos_nonneg; lia).
    assert (E : 2 ^ Zpos n~1 = 2 * 2 ^ Zpos n * 2 ^ Zpos n).
    { rewrite <- Z.mul_assoc, <- Z.pow_add_r, <- Z.pow_succ_r by lia.
      f_equal. lia. }
    rewrite E, <- !Z.div_div by lia. reflexivity.
  - assert (H2 : 0 <= shr_m (iter_pos shr_1 n mrs)).
    { rewrite IH by exact Hm. apply Z.div_pos; [ lia | ].
      apply Z.pow_pos_nonneg; lia. }
    rewrite IH by exact H2. rewrite IH by exact Hm.
    assert (Hpow : 0 < 2 ^ Zpos n) by (apply Z.pow_pos_nonneg; lia).
    assert (E : 2 ^ Zpos n~0 = 2 ^ Zpos n * 2 ^ Zpos n).
    { rewrite <- Z.pow_add_r by lia. f_equal. lia. }
    rewrite E, <- !Z.div_div by lia. reflexivity.
  - rewrite shr_1_m by exact Hm. reflexivity.
Qed.

Lemma fexp_eq (e : Z) : fexp 53 1024 e = Z.max (e - 53) (-1074).
Proof. reflexivity. Qed.

Lemma shr_fexp_spec (m e : Z) (l : location) :
  0 <= m ->
  let k := Z.max (Z.max (Zdigits2 m + e - 53) (-1074) - e) 0 in
  shr_m (fst (shr_fexp 53 1024 m e l)) = m / 2 ^ k
  /\ snd (shr_fexp 53 1024 m e l) = e + k.
Proof.
  intros Hm k. unfold shr_fexp, shr. rewrite fexp_eq. subst k.
  destruct (Z.max (Zdigits2 m + e - 53) (-1074) - e) as [ | p | p ] eqn:Hn;
    cbn [fst snd].
  - rewrite shr_m_of_loc. change (Z.max 0 0) with 0.
    rewrite Z.pow_0_r, Z.div_1_r. lia.
  - rewrite iter_pos_shr_1_m by (rewrite shr_m_of_loc; exact Hm).
    rewrite shr_m_of_loc. rewrite Z.max_l by lia. lia.
  - rewrite shr_m_of_loc. rewrite Z.max_r by lia.
    rewrite Z.pow_0_r, Z.div_1_r. lia.
Qed.

Lemma round_nearest_even_bounds (m : Z) (l : location) :
  m <= round_nearest_even m l <= m + 1.
Proof.
  destruct l as [ | [ | | ]]; cbn; try lia.
  destruct (Z.even m); lia.
Qed.

(** The arithmetic of the two shifts of [binary_round_aux]: [d], [D2] and
    [D3] are the sizes of the mantissa given, of the rounded one and of the
    result. *)
Lemma round_arith (e d k1 e1 D1 D2 k2 e3 D3 : Z) :
  k1 = Z.max (Z.max (d + e - 53) (-1074) - e) 0 ->
  e1 = e + k1 ->
  D1 = Z.max (d - k1) 0 ->
  k2 = Z.max (Z.max (D2 + e1 - 53) (-1074) - e1) 0 ->
  e3 = e1 + k2 ->
  0 <= d ->
  D1 <= D2 <= D1 + 1 ->
  D3 = Z.max (D2 - k2) 0 ->
  (D3 = 0 -> d = 0 \/ d + e <= -1074)
  /\ (1 <= D3 ->
      Z.max e (Z.max (d + e - 53) (-1074)) <= e3
                   <= Z.max e (Z.max (d + e - 52) (-1074))
      /\ D3 + e3 <= Z.max (d + e + 1) (Z.max (e + 1) (-1073))
      /\ (1 <= d -> d + e <= D3 + e3)).
Proof.
  intros Hk1 He1 HD1 Hk2 He3 Hd HD2 HD3.
  split; [ lia | intros H1; repeat split; lia ].
Qed.

(** What [binary_round_aux] returns, by the size [Zdigits2 m + e] of what it
    is given. *)
Lemma binary_round_aux_spec (s : bool) (m e : Z) (l : location) :
  0 <= m ->
  let mag := Zdigits2 m + e in
  match binary_round_aux 53 1024 s m e l with
  | S754_zero _ => m = 0 \/ mag <= -1074
  | S754_infinity s' =>
      s' = s /\ 971 < Z.max e (Z.max (mag - 52) (-1074))
  | S754_nan => False
  | S754_finite s' m' e' =>
      s' = s
      /\ Z.max e (Z.max (mag - 53) (-1074)) <= e'
                   <= Z.max e (Z.max (mag - 52) (-1074))
      /\ Zpos (digits2_pos m') + e' <= Z.max (mag + 1) (Z.max (e + 1) (-1073))
      /\ (0 < m -> mag <= Zpos (digits2_pos m') + e')
  end.
Proof.
  intros Hm mag. unfold binary_round_aux.
  pose proof (shr_fexp_spec m e l Hm) as [Hm1 He1]. cbv zeta in Hm1, He1.
  destruct (shr_fexp 53 1024 m e l) as [mrs1 e1]. cbn [fst snd] in Hm1, He1.
  set (k1 := Z.max (Z.max (Zdigits2 m + e - 53) (-1074) - e) 0) in *.
  assert (Hk1 : 0 <= k1) by (subst k1; lia).
  assert (Hpow1 : 0 < 2 ^ k1) by (apply Z.pow_pos_nonneg; lia).
  assert (Hm1' : 0 <= shr_m mrs1).
  { rewrite Hm1. apply Z.div_pos; lia. }
  pose proof (round_nearest_even_bounds (shr_m mrs1) (loc_of_shr_record mrs1))
    as Hround.
  set (m2 := round_nearest_even (shr_m mrs1) (loc_of_shr_record mrs1)) in *.
  assert (Hm2 : 0 <= m2) by lia.
  pose proof (shr_fexp_spec m2 e1 loc_Exact Hm2) as [Hm3 He3].
  cbv zeta in Hm3, He3.
  destruct (shr_fexp 53 1024 m2 e1 loc_Exact) as [mrs3 e3].
  cbn [fst snd] in Hm3, He3.
  set (k2 := Z.max (Z.max (Zdigits2 m2 + e1 - 53) (-1074) - e1) 0) in *.
  assert (Hk2 : 0 <= k2) by (subst k2; lia).
  assert (Hpow2 : 0 < 2 ^ k2) by (apply Z.pow_pos_nonneg; lia).
  pose proof (Zdigits2_div_pow2 m k1 Hm Hk1) as HD1. rewrite <- Hm1 in HD1.
  pose proof (Zdigits2_div_pow2 m2 k2 Hm2 Hk2) as HD3. rewrite <- Hm3 in HD3.
  assert (HD2lo : Zdigits2 (shr_m mrs1) <= Zdigits2 m2).
  { apply Zdigits2_mono. lia. }
  assert (HD2hi : Zdigits2 m2 <= Zdigits2 (shr_m mrs1) + 1).
  { etransitivity; [ | apply Zdigits2_succ; exact Hm1' ].
    apply Zdigits2_mono. lia. }
  assert (Hm3' : 0 <= shr_m mrs3).
  { rewrite Hm3. apply Z.div_pos; lia. }
  pose proof (round_arith e (Zdigits2 m) k1 e1 (Zdigits2 (shr_m mrs1))
                (Zdigits2 m2) k2 e3 (Zdigits2 (shr_m mrs3))
                eq_refl He1 HD1 eq_refl He3 (Zdigits2_nonneg m)
                (conj HD2lo HD2hi) HD3) as [Hzero Hfinite].
  subst mag.
  destruct (shr_m mrs3) as [ | p | p ] eqn:Hres.
  - destruct (Hzero eq_refl) as [H0 | H0]; [ | right; exact H0 ].
    left. destruct m; [ reflexivity | discriminate | lia ].
  - change (Zdigits2 (Zpos p)) with (Zpos (digits2_pos p)) in Hfinite.
    assert (H1 : 1 <= Zpos (digits2_pos p)) by lia.
    destruct (Hfinite H1) as (He & Hmag & Hlow).
    destruct (Z.leb_spec e3 (1024 - 53)) as [Hle | Hgt].
    + split; [ reflexivity | ]. split; [ exact He | ].
      split; [ exact Hmag | ].
      intros Hpos. apply Hlow. apply Zdigits2_pos. lia.
    + split; [ reflexivity | ]. clear - He Hgt. lia.
  - lia.
Qed.

(** ** Aligning and normalising *)

Lemma Pos_iter_xO (m d : positive) :
  Zpos (Pos.iter xO m d) = Zpos m * 2 ^ Zpos d.
Proof.
  induction d as [ | d IH] using Pos.peano_ind.
  - cbn [Pos.iter]. lia.
  - rewrite Pos.iter_succ, Pos2Z.inj_succ, Z.pow_succ_r by lia.
    rewrite Pos2Z.inj_xO, IH. lia.
Qed.

Lemma shl_align_spec (mx : positive) (ex ex' : Z) :
  snd (shl_align mx ex ex') = Z.min ex ex'
  /\ Zpos (fst (shl_align mx ex ex')) = Zpos mx * 2 ^ (ex - Z.min ex ex').
Proof.
  unfold shl_align.
  destruct (ex' - ex) as [ | d | d ] eqn:Hd; cbn [fst snd].
  - rewrite Z.min_l by lia. rewrite Z.sub_diag. lia.
  - rewrite Z.min_l by lia. rewrite Z.sub_diag. lia.
  - rewrite Z.min_r by lia. rewrite Pos_iter_xO.
    split; [ reflexivity | ]. do 2 f_equal. lia.
Qed.

(** A mantissa aligned to a smaller exponent keeps its size. *)
Lemma aligned_lt (mx : positive) (ex ez B : Z) :
  ez <= ex -> Zpos (digits2_pos mx) + ex <= B ->
  Zpos mx * 2 ^ (ex - ez) < 2 ^ (B - ez).
Proof.
  intros Hez HB.
  pose proof (Zdigits2_gt (Zpos mx)) as Hgt. cbn [Zdigits2 Z.abs] in Hgt.
  assert (Hpow : 0 < 2 ^ (ex - ez)) by (apply Z.pow_pos_nonneg; lia).
  apply Z.lt_le_trans with (2 ^ Zpos (digits2_pos mx) * 2 ^ (ex - ez)).
  - apply Z.mul_lt_mono_pos_r; assumption.
  - rewrite <- Z.pow_add_r by lia. apply Z.pow_le_mono_r; lia.
Qed.

Lemma binary_round_spec (s : bool) (mx : positive) (ex : Z) :
  let mag := Zpos (digits2_pos mx) + ex in
  match binary_round 53 1024 s mx ex with
  | S754_zero _ => mag <= -1074
  | S754_infinity s' => s' = s /\ 1024 <= mag
  | S754_nan => False
  | S754_finite s' m' e' =>
      s' = s
      /\ Z.max (mag - 53) (-1074) <= e' <= Z.max (mag - 52) (-1074)
      /\ mag <= Zpos (digits2_pos m') + e' <= Z.max (mag + 1) (-1073)
  end.
Proof.
  intros mag. unfold binary_round. rewrite fexp_eq. fold mag.
  pose proof (shl_align_spec mx ex (Z.max (mag - 53) (-1074))) as [He Hm].
  destruct (shl_align mx ex (Z.max (mag - 53) (-1074))) as [mz ez].
  cbn [fst snd] in He, Hm.
  assert (Hsize : Zdigits2 (Zpos mz) + ez = mag).
  { rewrite Hm, Zdigits2_mul_pow2 by lia. subst mag. cbn [Zdigits2]. lia. }
  pose proof (binary_round_aux_spec s (Zpos mz) ez loc_Exact
                (Pos2Z.is_nonneg mz)) as Hspec.
  cbv zeta in Hspec. rewrite Hsize in Hspec.
  destruct (binary_round_aux 53 1024 s (Zpos mz) ez loc_Exact)
    as [s' | s' | | s' m' e'].
  - destruct Hspec as [H0 | H0]; [ discriminate | exact H0 ].
  - destruct Hspec as [Hs Hinf]. split; [ exact Hs | lia ].
  - exact Hspec.
  - destruct Hspec as (Hs & He' & Hup & Hlow).
    split; [ exact Hs | ]. specialize (Hlow eq_refl). lia.
Qed.

(** ** Magnitudes of results *)

Lemma below_weaken (B B' : Z) (x : float) :
  below B x -> B <= B' -> below B' x.
Proof. destruct x; cbn; auto. lia. Qed.

Lemma below_not_inf (B : Z) (x : float) : below B x -> PyFloat.is_inf x = false.
Proof. destruct x; cbn; auto. contradiction. Qed.

Lemma int_of_float_below (B : Z) (x : float) :
  below B x -> exists n, int_of_float x = Returns n.
Proof. destruct x; cbn; try contradiction; eauto. Qed.

Lemma normalize_below (m e : Z) (sz : bool) (B : Z) :
  Zdigits2 m + e <= B -> -1074 <= B <= 1023 ->
  below (B + 1) (binary_normalize 53 1024 m e sz).
Proof.
  intros Hsize HB.
  destruct m as [ | p | p ]; cbn [binary_normalize Zdigits2] in *;
    [ exact I | | ].
  - pose proof (binary_round_spec false p e) as Hspec. cbv zeta in Hspec.
    destruct (binary_round 53 1024 false p e); cbn [below]; auto; lia.
  - pose proof (binary_round_spec true p e) as Hspec. cbv zeta in Hspec.
    destruct (binary_round 53 1024 true p e); cbn [below]; auto; lia.
Qed.

Lemma of_Z_below (n k : Z) :
  Z.abs n < 2 ^ k -> 0 <= k <= 1023 -> below (k + 1) (PyFloat.of_Z n).
Proof.
  intros Hn Hk. apply normalize_below; [ | lia ].
  pose proof (Zdigits2_le n k (proj1 Hk) Hn). lia.
Qed.

Lemma abs_cond_Zopp (s : bool) (v : Z) : Z.abs (cond_Zopp s v) = Z.abs v.
Proof. destruct s; cbn; lia. Qed.

(** The sum or difference of two aligned mantissas. *)
Lemma aligned_sum_size (sx sy : bool) (mx my : positive) (ex ey B : Z)
    (minus : bool) :
  Zpos (digits2_pos mx) + ex <= B ->
  Zpos (digits2_pos my) + ey <= B ->
  let ez := Z.min ex ey in
  let X := cond_Zopp sx (Zpos (fst (shl_align mx ex ez))) in
  let Y := cond_Zopp sy (Zpos (fst (shl_align my ey ez))) in
  Zdigits2 (if minus then X - Y else X + Y) + ez <= B + 1.
Proof.
  intros Hx Hy ez X Y.
  assert (Hez : ez <= ex /\ ez <= ey) by (subst ez; lia).
  pose proof (shl_align_spec mx ex ez) as [_ HX].
  pose proof (shl_align_spec my ey ez) as [_ HY].
  rewrite Z.min_r in HX, HY by lia.
  pose proof (aligned_lt mx ex ez B (proj1 Hez) Hx) as HXlt.
  pose proof (aligned_lt my ey ez B (proj2 Hez) Hy) as HYlt.
  rewrite <- HX in HXlt. rewrite <- HY in HYlt.
  assert (HXabs : Z.abs X < 2 ^ (B - ez)).
  { subst X. rewrite abs_cond_Zopp. cbn [Z.abs]. exact HXlt. }
  assert (HYabs : Z.abs Y < 2 ^ (B - ez)).
  { subst Y. rewrite abs_cond_Zopp. cbn [Z.abs]. exact HYlt. }
  assert (Hk : 0 <= B - ez).
  { pose proof (Pos2Z.is_pos (digits2_pos mx)). lia. }
  assert (Hsize : Zdigits2 (if minus then X - Y else X + Y) <= B - ez + 1).
  { apply Zdigits2_le; [ lia | ].
    rewrite Z.pow_add_r by lia. change (2 ^ 1) with 2.
    destruct minus; lia. }
  lia.
Qed.

Lemma add_below (x y : float) (B : Z) :
  below B x -> below B y -> -1074 <= B <= 1021 ->
  below (B + 2) (PyFloat.add x y).
Proof.
  intros Hx Hy HB.
  destruct x as [sx | sx | | sx mx ex]; try contradiction;
    destruct y as [sy | sy | | sy my ey]; try contradiction;
    cbn [PyFloat.add SFadd below] in *.
  - destruct sx, sy; exact I.
  - lia.
  - lia.
  - replace (B + 2) with (B + 1 + 1) by lia.
    apply normalize_below; [ | lia ].
    exact (aligned_sum_size sx sy mx my ex ey B false Hx Hy).
Qed.

Lemma sub_below (x y : float) (B : Z) :
  below B x -> below B y -> -1074 <= B <= 1021 ->
  below (B + 2) (PyFloat.sub x y).
Proof.
  intros Hx Hy HB.
  destruct x as [sx | sx | | sx mx ex]; try contradiction;
    destruct y as [sy | sy | | sy my ey]; try contradiction;
    cbn [PyFloat.sub SFsub below] in *.
  - destruct sx, sy; exact I.
  - lia.
  - lia.
  - replace (B + 2) with (B + 1 + 1) by lia.
    apply normalize_below; [ | lia ].
    exact (aligned_sum_size sx sy mx my ex ey B true Hx Hy).
Qed.

Lemma mul_below (x y : float) (Bx By : Z) :
  below Bx x -> below By y -> -1074 <= Bx + By <= 971 ->
  below (Bx + By + 1) (PyFloat.mul x y).
Proof.
  intros Hx Hy HB.
  destruct x as [sx | sx | | sx mx ex]; try contradiction;
    destruct y as [sy | sy | | sy my ey]; try contradiction;
    cbn [PyFloat.mul SFmul below] in *; try exact I.
  unfold PyFloat.prec, PyFloat.emax.
  pose proof (binary_round_aux_spec (xorb sx sy) (Zpos (mx * my)) (ex + ey)
                loc_Exact (Pos2Z.is_nonneg _)) as Hspec.
  cbv zeta in Hspec.
  assert (Hsize : Zdigits2 (Zpos (mx * my))
                  <= Zpos (digits2_pos mx) + Zpos (digits2_pos my)).
  { apply Zdigits2_le; [ lia | ].
    pose proof (Zdigits2_gt (Zpos mx)) as H1.
    pose proof (Zdigits2_gt (Zpos my)) as H2.
    cbn [Zdigits2 Z.abs] in *.
    rewrite Z.pow_add_r, Pos2Z.inj_mul by lia. nia. }
  pose proof (Pos2Z.is_pos (digits2_pos mx)).
  pose proof (Pos2Z.is_pos (digits2_pos my)).
  destruct (binary_round_aux 53 1024 (xorb sx sy) (Zpos (mx * my)) (ex + ey)
              loc_Exact); cbn [below]; auto; lia.
Qed.

(** ** Division *)

Lemma div_core_spec (m1 m2 : positive) (e1 e2 : Z) :
  let M := (Zpos (digits2_pos m1) + e1) - (Zpos (digits2_pos m2) + e2) in
  let '(q, e', l) := SFdiv_core_binary 53 1024 (Zpos m1) e1 (Zpos m2) e2 in
  0 <= q
  /\ e' <= Z.max (M - 53) (-1074)
  /\ Zdigits2 q + e' <= Z.max (M + 1) (-1074)
  /\ (-1021 <= M -> 0 < q /\ M <= Zdigits2 q + e').
Proof.
  intros M. unfold SFdiv_core_binary. rewrite fexp_eq. cbn [Zdigits2].
  fold M.
  set (d1 := Zpos (digits2_pos m1)) in *.
  set (d2 := Zpos (digits2_pos m2)) in *.
  set (e' := Z.min (Z.max (M - 53) (-1074)) (e1 - e2)).
  set (s := e1 - e2 - e').
  assert (Hs : 0 <= s) by (subst s e'; lia).
  set (m' := match s with
             | 0 => Zpos m1
             | Zpos _ => Z.shiftl (Zpos m1) s
             | Zneg _ => 0
             end).
  assert (Hm' : m' = Zpos m1 * 2 ^ s).
  { subst m'. destruct s as [ | p | p ] eqn:Hsp.
    - lia.
    - rewrite Z.shiftl_mul_pow2 by lia. reflexivity.
    - lia. }
  clearbody m'.
  destruct (Z.div_eucl m' (Zpos m2)) as [q r] eqn:Hdiv.
  assert (Hq : q = m' / Zpos m2).
  { unfold Z.div. rewrite Hdiv. reflexivity. }
  clear Hdiv.
  assert (Hpow : 0 < 2 ^ s) by (apply Z.pow_pos_nonneg; lia).
  assert (Hq0 : 0 <= q).
  { rewrite Hq. apply Z.div_pos; lia. }
  assert (Hlo : Zpos m2 * q <= m').
  { rewrite Hq. apply Z.mul_div_le. lia. }
  assert (Hhi : m' < Zpos m2 * (q + 1)).
  { rewrite Hq. apply Z.mul_succ_div_gt. lia. }
  pose proof (Zdigits2_gt (Zpos m1)) as H1hi.
  pose proof (Zdigits2_gt (Zpos m2)) as H2hi.
  pose proof (Zdigits2_lower (Zpos m1)) as H1lo.
  pose proof (Zdigits2_lower (Zpos m2)) as H2lo.
  cbn [Zdigits2 Z.abs] in H1hi, H2hi, H1lo, H2lo.
  fold d1 in H1hi, H1lo. fold d2 in H2hi, H2lo.
  specialize (H1lo ltac:(discriminate)). specialize (H2lo ltac:(discriminate)).
  assert (Hd1 : 1 <= d1) by (subst d1; lia).
  assert (Hd2 : 1 <= d2) by (subst d2; lia).
  assert (He' : e' <= Z.max (M - 53) (-1074)) by (subst e'; lia).
  split; [ exact Hq0 | ]. split; [ exact He' | ]. split.
  - destruct (Z.eq_dec q 0) as [-> | Hnz]; [ cbn [Zdigits2]; lia | ].
    assert (Hsize : Zdigits2 q <= d1 + s - d2 + 1).
    { assert (Hprod : q * 2 ^ (d2 - 1) < 2 ^ (d1 + s)).
      { rewrite Z.pow_add_r by lia.
        assert (0 < 2 ^ (d2 - 1)) by (apply Z.pow_pos_nonneg; lia).
        nia. }
      destruct (Z_lt_le_dec (d1 + s - d2 + 1) 0) as [Hneg | Hpos].
      - exfalso.
        assert (2 ^ (d1 + s) <= 2 ^ (d2 - 1))
          by (apply Z.pow_le_mono_r; lia).
        assert (0 < 2 ^ (d2 - 1)) by (apply Z.pow_pos_nonneg; lia).
        nia.
      - apply Zdigits2_le; [ exact Hpos | ].
        rewrite Z.abs_eq by exact Hq0.
        replace (d1 + s) with ((d1 + s - d2 + 1) + (d2 - 1)) in Hprod by lia.
        rewrite Z.pow_add_r in Hprod by lia.
        assert (0 < 2 ^ (d2 - 1)) by (apply Z.pow_pos_nonneg; lia).
        nia. }
    subst s M. lia.
  - intros HM.
    assert (Hs53 : 53 <= d1 + s - d2) by (subst s e' M; lia).
    assert (Hbig : 2 ^ (d1 + s - d2 - 1) <= q).
    { assert (Hprod : 2 ^ (d1 - 1 + s) < 2 ^ d2 * (q + 1)).
      { rewrite Z.pow_add_r by lia. nia. }
      replace (d1 - 1 + s) with ((d1 + s - d2 - 1) + d2) in Hprod by lia.
      rewrite Z.pow_add_r in Hprod by lia.
      assert (0 < 2 ^ d2) by (apply Z.pow_pos_nonneg; lia).
      nia. }
    assert (Hpos : 0 < 2 ^ (d1 + s - d2 - 1))
      by (apply Z.pow_pos_nonneg; lia).
    split; [ lia | ].
    assert (Hsize : d1 + s - d2 <= Zdigits2 q).
    { apply Zdigits2_ge; [ | lia ]. rewrite Z.abs_eq by lia. exact Hbig. }
    subst s M. lia.
Qed.

Lemma div_below (x : float) (sy : bool) (my : positive) (ey Bx L : Z) :
  below Bx x -> L <= Zpos (digits2_pos my) + ey ->
  -1073 <= Bx - L + 2 <= 1024 ->
  below (Bx - L + 2) (PyFloat.div x (S754_finite sy my ey)).
Proof.
  intros Hx HL HB.
  destruct x as [sx | sx | | sx mx ex]; try contradiction;
    cbn [PyFloat.div SFdiv below] in *; [ exact I | ].
  unfold PyFloat.prec, PyFloat.emax.
  pose proof (div_core_spec mx my ex ey) as Hcore. cbv zeta in Hcore.
  destruct (SFdiv_core_binary 53 1024 (Zpos mx) ex (Zpos my) ey)
    as [[q e'] l].
  destruct Hcore as (Hq & He' & Hsize & _).
  pose proof (binary_round_aux_spec (xorb sx sy) q e' l Hq) as Hspec.
  cbv zeta in Hspec.
  destruct (binary_round_aux 53 1024 (xorb sx sy) q e' l);
    cbn [below]; auto; lia.
Qed.

(** The quotient of two finite floats is not smaller than the sizes of its
    operands say. *)
Lemma div_large (sx sy : bool) (mx my : positive) (ex ey : Z) :
  let M := (Zpos (digits2_pos mx) + ex) - (Zpos (digits2_pos my) + ey) in
  -1021 <= M ->
  match PyFloat.div (S754_finite sx mx ex) (S754_finite sy my ey) with
  | S754_infinity s => s = xorb sx sy
  | S754_finite s m e =>
      s = xorb sx sy /\ M - 53 <= e /\ M <= Zpos (digits2_pos m) + e
  | _ => False
  end.
Proof.
  intros M HM. cbn [PyFloat.div SFdiv].
  unfold PyFloat.prec, PyFloat.emax.
  pose proof (div_core_spec mx my ex ey) as Hcore. cbv zeta in Hcore.
  fold M in Hcore.
  destruct (SFdiv_core_binary 53 1024 (Zpos mx) ex (Zpos my) ey)
    as [[q e'] l].
  destruct Hcore as (Hq & He' & Hsize & Hlow).
  destruct (Hlow HM) as [Hpos Hmag].
  pose proof (binary_round_aux_spec (xorb sx sy) q e' l Hq) as Hspec.
  cbv zeta in Hspec.
  destruct (binary_round_aux 53 1024 (xorb sx sy) q e' l).
  - lia.
  - tauto.
  - exact Hspec.
  - destruct Hspec as (Hs & He & Hup & Hlo). specialize (Hlo Hpos).
    split; [ exact Hs | ]. lia.
Qed.

(** ** [fmod] and [floor] *)

Lemma fmod_below (x : float) (sy : bool) (my : positive) (ey Bx By : Z) :
  below Bx x -> Zpos (digits2_pos my) + ey <= By -> -1074 <= By <= 1023 ->
  below (By + 1) (PyFloat.fmod x (S754_finite sy my ey)).
Proof.
  intros Hx Hy HB.
  destruct x as [sx | sx | | sx mx ex]; try contradiction;
    cbn [PyFloat.fmod below] in *; [ exact I | ].
  apply normalize_below; [ | exact HB ].
  set (e := Z.min ex ey).
  assert (He : e <= ex /\ e <= ey) by (subst e; lia).
  rewrite !Z.shiftl_mul_pow2 by lia.
  pose proof (aligned_lt my ey e By (proj2 He) Hy) as HY.
  set (Y := Zpos my * 2 ^ (ey - e)) in *.
  assert (HYpos : 0 < Y).
  { subst Y. apply Z.mul_pos_pos; [ lia | ]. apply Z.pow_pos_nonneg; lia. }
  pose proof (Z.mod_pos_bound (Zpos mx * 2 ^ (ex - e)) Y HYpos) as Hmod.
  assert (Hk : 0 <= By - e).
  { pose proof (Pos2Z.is_pos (digits2_pos my)). lia. }
  assert (Hsize : Zdigits2 (cond_Zopp sx ((Zpos mx * 2 ^ (ex - e)) mod Y))
                  <= By - e).
  { apply Zdigits2_le; [ exact Hk | ]. rewrite abs_cond_Zopp. lia. }
  lia.
Qed.

Lemma floor_below (x : float) (B : Z) :
  below B x -> 0 <= B <= 1022 -> below (B + 2) (PyFloat.floor x).
Proof.
  intros Hx HB.
  destruct x as [sx | sx | | sx mx ex]; try contradiction;
    cbn [PyFloat.floor below] in *; [ exact I | ].
  destruct (Z.leb_spec 0 ex) as [Hex | Hex]; [ cbn [below]; lia | ].
  replace (B + 2) with (B + 1 + 1) by lia.
  apply normalize_below; [ | lia ].
  rewrite Z.shiftr_div_pow2 by lia.
  assert (Hpow : 0 < 2 ^ (- ex)) by (apply Z.pow_pos_nonneg; lia).
  pose proof (Zdigits2_div_pow2 (Zpos mx) (- ex) ltac:(lia) ltac:(lia))
    as Hq.
  cbn [Zdigits2] in Hq.
  set (q := Zpos mx / 2 ^ (- ex)) in *.
  assert (Hq0 : 0 <= q) by (subst q; apply Z.div_pos; lia).
  assert (Hbound : Z.abs (cond_Zopp sx (Zpos mx) / 2 ^ (- ex)) <= q + 1).
  { destruct sx; cbn [cond_Zopp].
    - pose proof (Z.mul_div_le (- Zpos mx) (2 ^ (- ex)) Hpow) as H1.
      pose proof (Z.mul_succ_div_gt (- Zpos mx) (2 ^ (- ex)) Hpow) as H2.
      pose proof (Z.mul_div_le (Zpos mx) (2 ^ (- ex)) Hpow) as H3.
      pose proof (Z.mul_succ_div_gt (Zpos mx) (2 ^ (- ex)) Hpow) as H4.
      fold q in H3, H4.
      set (q' := - Zpos mx / 2 ^ (- ex)) in *. nia.
    - fold q. lia. }
  assert (Hsize : Zdigits2 (cond_Zopp sx (Zpos mx) / 2 ^ (- ex))
                  <= Zdigits2 q + 1).
  { etransitivity; [ | apply Zdigits2_succ; exact Hq0 ].
    apply Zdigits2_mono. lia. }
  lia.
Qed.

(** ** [%] and [//] *)

Lemma rem_below (vx : float) (sw : bool) (mw : positive) (ew B Bw : Z) :
  below B vx -> Zpos (digits2_pos mw) + ew <= Bw -> -1074 <= Bw <= 1018 ->
  below (Bw + 3) (PyFloat.rem vx (S754_finite sw mw ew)).
Proof.
  intros Hx Hw HB. unfold PyFloat.rem.
  pose proof (fmod_below vx sw mw ew B Bw Hx Hw ltac:(lia)) as Hmod.
  set (mod0 := PyFloat.fmod vx (S754_finite sw mw ew)) in *.
  destruct (PyFloat.nonzero mod0); [ | exact I ].
  destruct (negb _).
  - replace (Bw + 3) with (Bw + 1 + 2) by lia.
    apply add_below; [ exact Hmod | cbn [below]; lia | lia ].
  - apply (below_weaken _ _ _ Hmod). lia.
Qed.

Lemma floordiv_below (vx : float) (sw : bool) (mw : positive)
    (ew B : Z) :
  below B vx -> 0 <= Zpos (digits2_pos mw) + ew <= 10 -> 0 <= B <= 900 ->
  below (B + 30) (fst (PyFloat.div_mod vx (S754_finite sw mw ew))).
Proof.
  intros Hx Hw HB. unfold PyFloat.div_mod.
  assert (Hwb : below 10 (S754_finite sw mw ew)) by (cbn [below]; lia).
  set (w := S754_finite sw mw ew) in *.
  pose proof (fmod_below vx sw mw ew B 10 Hx ltac:(lia) ltac:(lia)) as Hmod.
  fold w in Hmod.
  set (mod0 := PyFloat.fmod vx w) in *.
  assert (Hsub : below (B + 13) (PyFloat.sub vx mod0)).
  { replace (B + 13) with (B + 11 + 2) by lia.
    apply sub_below; [ | | lia ].
    - apply (below_weaken _ _ _ Hx). lia.
    - apply (below_weaken _ _ _ Hmod). lia. }
  assert (Hdiv0 : below (B + 15) (PyFloat.div (PyFloat.sub vx mod0) w)).
  { replace (B + 15) with (B + 13 - 0 + 2) by lia.
    apply div_below; [ exact Hsub | lia | lia ]. }
  set (div0 := PyFloat.div (PyFloat.sub vx mod0) w) in *.
  assert (Hone : below (B + 15) (PyFloat.of_Z 1)).
  { change (PyFloat.of_Z 1) with (S754_finite false 4503599627370496 (-52)).
    cbn. lia. }
  assert (Hdv : forall dv, dv = PyFloat.sub div0 (PyFloat.of_Z 1) \/ dv = div0 ->
                           below (B + 17) dv).
  { intros dv [-> | ->].
    - replace (B + 17) with (B + 15 + 2) by lia.
      apply sub_below; [ exact Hdiv0 | exact Hone | lia ].
    - apply (below_weaken _ _ _ Hdiv0). lia. }
  assert (Hfloor : forall dv, below (B + 17) dv ->
            below (B + 30)
              (if PyFloat.nonzero dv then
                 if PyFloat.ltb PyFloat.half (PyFloat.sub dv (PyFloat.floor dv))
                 then PyFloat.add (PyFloat.floor dv) (PyFloat.of_Z 1)
                 else PyFloat.floor dv
               else PyFloat.copysign_zero (PyFloat.div vx w))).
  { intros dv Hdv'.
    destruct (PyFloat.nonzero dv); [ | exact I ].
    pose proof (floor_below dv (B + 17) Hdv' ltac:(lia)) as Hfl.
    destruct (PyFloat.ltb _ _).
    - apply below_weaken with (B + 17 + 2 + 2); [ | lia ].
      apply add_below; [ exact Hfl | | lia ].
      apply (below_weaken _ _ _ Hone). lia.
    - apply (below_weaken _ _ _ Hfl). lia. }
  destruct (PyFloat.nonzero mod0); [ destruct (negb _) | ];
    cbn [fst]; apply Hfloor, Hdv; auto.
Qed.

(** ** The timestamp *)

(** With fewer than 2^63 frames counted, at a frame rate that is not a
    slow one, the playback time is below 2^157 and every step of the
    timestamp arithmetic is finite: [_get_timestamp] returns. *)
Lemma timestamp_returns (p : MediaPlayer.state) :
  0 <= MediaPlayer.current_frame p < 2 ^ 63 ->
  slow_rate (MediaPlayer.fps p) = false ->
  exists ts, MediaPlayer._get_timestamp p = (Returns ts, p).
Proof.
  intros Hframe Hrate.
  unfold MediaPlayer._get_timestamp. unfold_method.
  destruct (PyFloat.ltb (PyFloat.of_Z 0) (MediaPlayer.fps p)) eqn:Hfps;
    [ | eauto ].
  assert (Hn : below 64 (PyFloat.of_Z (MediaPlayer.current_frame p))).
  { apply (of_Z_below _ 63); lia. }
  unfold float_of_int. rewrite (below_not_inf _ _ Hn).
  unfold truediv. rewrite (positive_not_zero _ Hfps).
  set (ct := PyFloat.div (PyFloat.of_Z (MediaPlayer.current_frame p))
               (MediaPlayer.fps p)).
  assert (Hct : below 157 ct).
  { subst ct.
    destruct (MediaPlayer.fps p) as [s | s | | s m e]; try destruct s;
      try discriminate.
    - destruct (PyFloat.of_Z (MediaPlayer.current_frame p));
        try contradiction; exact I.
    - cbn [slow_rate] in Hrate. apply Z.leb_gt in Hrate.
      replace 157 with (64 - (-91) + 2) by lia.
      apply div_below; [ exact Hn | lia | lia ]. }
  clearbody ct.
  unfold floordiv, mod_.
  change (PyFloat.eqb (PyFloat.of_Z 60) PyFloat.zero) with false.
  change (PyFloat.eqb (PyFloat.of_Z 1) PyFloat.zero) with false.
  cbv beta iota.
  change (PyFloat.of_Z 60) with (S754_finite false 8444249301319680 (-47)).
  change (PyFloat.of_Z 1) with (S754_finite false 4503599627370496 (-52)).
  change (PyFloat.of_Z 1000) with (S754_finite false 8796093022208000 (-43)).
  destruct (int_of_float_below _ _
              (floordiv_below ct false 8444249301319680 (-47) 157 Hct
                 ltac:(cbn; lia) ltac:(lia))) as [minutes ->].
  destruct (int_of_float_below _ _
              (rem_below ct false 8444249301319680 (-47) 157 6 Hct
                 ltac:(cbn; lia) ltac:(lia))) as [seconds ->].
  pose proof (rem_below ct false 4503599627370496 (-52) 157 1 Hct
                ltac:(cbn; lia) ltac:(lia)) as Hfrac.
  destruct (int_of_float_below _ _
              (mul_below _ (S754_finite false 8796093022208000 (-43)) _ 10
                 Hfrac ltac:(cbn; lia) ltac:(lia))) as [milliseconds ->].
  eauto.
Qed.

(** ** The delay the worker sleeps *)

(** At a slow rate the frame delay is beyond [sleep_limit], or infinite,
    at each of the four speeds. *)
Lemma delay_refused (rate speed : float) :
  slow_rate rate = true -> allowed_speed speed ->
  PyFloat.leb (PyFloat.div (PyFloat.div (PyFloat.of_Z 1) rate) speed)
    sleep_limit = false.
Proof.
  intros Hrate Hspeed.
  destruct rate as [s | s | | [ | ] m e]; try discriminate.
  cbn [slow_rate] in Hrate. apply Z.leb_le in Hrate.
  change (PyFloat.of_Z 1) with (S754_finite false 4503599627370496 (-52)).
  pose proof (div_large false false 4503599627370496 m (-52) e) as Hx.
  cbv zeta in Hx.
  change (Zpos (digits2_pos 4503599627370496)) with 53 in Hx.
  specialize (Hx ltac:(lia)). cbn [xorb] in Hx.
  assert (Hs : exists es, speed = S754_finite false 4503599627370496 es
                          /\ -53 <= es <= -50).
  { destruct Hspeed as [-> | [-> | [-> | ->]]];
      [ exists (-53) | exists (-52) | exists (-51) | exists (-50) ];
      (split; [ reflexivity | lia ]). }
  destruct Hs as (es & -> & Hes).
  destruct (PyFloat.div (S754_finite false 4503599627370496 (-52))
              (S754_finite false m e)) as [s | s | | s mx ex];
    try contradiction.
  - subst s. reflexivity.
  - destruct Hx as (-> & Hex & Hmag).
    pose proof (div_large false false mx 4503599627370496 ex es) as Hd.
    cbv zeta in Hd.
    change (Zpos (digits2_pos 4503599627370496)) with 53 in Hd.
    specialize (Hd ltac:(lia)). cbn [xorb] in Hd.
    destruct (PyFloat.div (S754_finite false mx ex)
                (S754_finite false 4503599627370496 es))
      as [s | s | | s md ed]; try contradiction.
    + subst s. reflexivity.
    + destruct Hd as (-> & Hed & _).
      change sleep_limit with (S754_finite false 4503599627370496 (-18)).
      unfold PyFloat.leb, SFleb, SFcompare.
      destruct (Z.compare_spec ed (-18)); [ lia | lia | reflexivity ].
Qed.

(** ** Runs

    On every state of a run a frame has been counted only at a frame rate
    that is not a slow one. *)

(** A pass counts a frame only when [time.sleep] has returned on the frame
    delay. *)
Lemma loop_body_counts (pass : Pass) (p : MediaPlayer.state) :
  well_formed p = true -> sleeps_as_cpython pass ->
  let p' := snd (Worker.loop_body pass p) in
  MediaPlayer.current_frame p' = MediaPlayer.current_frame p
  \/ (MediaPlayer.current_frame p' = MediaPlayer.current_frame p + 1
      /\ slow_rate (MediaPlayer.fps p) = false).
Proof.
  intros Hwf Hsleep. rewrite loop_body_cases.
  destruct (MediaPlayer.is_paused p);
    [ destruct (sleep pass Worker.tenth); left; reflexivity | ].
  destruct (negb (fst (read pass))); [ left; reflexivity | ].
  destruct (fst (Worker._add_overlays _)); [ | left; reflexivity ].
  set (q := MediaPlayer.set_cap (Some (snd (read pass))) p).
  assert (Hq : well_formed q = true) by exact Hwf.
  rewrite (frame_delay_well_formed q Hq). cbn [fst].
  destruct (sleep pass _) as [[] | e] eqn:Hs; [ | left; reflexivity ].
  right. split; [ reflexivity | ].
  apply Hsleep in Hs.
  destruct (slow_rate (MediaPlayer.fps p)) eqn:Hslow; [ | reflexivity ].
  unfold well_formed in Hwf. apply andb_true_iff in Hwf as [Hspeed _].
  apply contains_VALID_SPEEDS_iff in Hspeed.
  change (PyFloat.leb
            (PyFloat.div (PyFloat.div (PyFloat.of_Z 1) (MediaPlayer.fps p))
               (MediaPlayer.speed p)) sleep_limit = true) in Hs.
  rewrite (delay_refused _ _ Hslow Hspeed) in Hs. discriminate.
Qed.

Lemma worker_pass_ok (pass : Pass) (p : MediaPlayer.state) :
  sleeps_as_cpython pass -> counted_frames_ok p ->
  counted_frames_ok (snd (Worker._play_video [pass] p)).
Proof.
  intros Hsleep (Hwf & Hframe & Hrate).
  assert (Hstop : forall q, counted_frames_ok q ->
                            counted_frames_ok (snd (Worker.after_loop q))).
  { intros q Hq. exact Hq. }
  cbn [Worker._play_video].
  destruct (Worker.loop_test p); [ | apply Hstop; repeat split; assumption ].
  pose proof (loop_body_keeps pass p) as (Hkeep & _ & _).
  pose proof (loop_body_counts pass p Hwf Hsleep) as Hcount.
  cbv zeta in Hkeep, Hcount.
  assert (Hbody : counted_frames_ok (snd (Worker.loop_body pass p))).
  { destruct Hkeep as (_ & _ & Hfps & Hspeed & _).
    unfold counted_frames_ok, well_formed in *.
    rewrite Hfps, Hspeed. split; [ exact Hwf | ].
    destruct Hcount as [-> | [-> Hslow]]; split; auto; lia. }
  destruct (Worker.loop_body pass p) as [[[ | ] | e] q]; cbn [snd] in *.
  - destruct (Worker.loop_test q); [ exact Hbody | apply Hstop, Hbody ].
  - apply Hstop, Hbody.
  - exact Hbody.
Qed.

(** A call leaves the frame counter and the frame rate as they are, or the
    counter at 0. *)
Lemma dispatch_frames (host : Host) (c : call) (svc : VideoService.state)
    (p p' : MediaPlayer.state) :
  VideoService.media_player svc = Some p ->
  VideoService.media_player (snd (dispatch host c svc)) = Some p' ->
  MediaPlayer.current_frame p' = 0
  \/ (MediaPlayer.current_frame p' = MediaPlayer.current_frame p
      /\ MediaPlayer.fps p' = MediaPlayer.fps p).
Proof.
  intros Hp. rewrite (service_eta svc p Hp).
  destruct p as [path0 c0 playing paused frame total rate sp th].
  destruct c as [path | [o] | | | | [s] | ];
    cbn [dispatch]; unfold Routes.load_video, Routes.play_video,
      Routes.pause_video, Routes.stop_video, Routes.reset_video,
      Routes.set_speed, Routes.get_status;
    cbn [PlayRequest.speed SpeedRequest.speed].
  - destruct (os_path_exists host path) eqn:Hexists.
    + rewrite (load_video_existing host path _ Hexists).
      destruct (isOpened (cv2_VideoCapture host path)) eqn:Hopen.
      * rewrite (init_opened host path Hopen).
        destruct (int_of_float _); intros [= <-]; [ left | right ];
          split; reflexivity.
      * rewrite (init_not_opened host path Hopen).
        intros [= <-]. right. split; reflexivity.
    + rewrite (load_video_not_found host path _ Hexists).
      intros [= <-]. right. split; reflexivity.
  - rewrite play_video_state, player_play_state. intros [= <-]. right.
    unfold MediaPlayer.play. unfold_method.
    destruct o as [s | ];
      [ destruct (MediaPlayer.contains MediaPlayer.VALID_SPEEDS s) | ];
      cbn; try destruct playing; cbn; split; reflexivity.
  - rewrite pause_video_loaded. intros [= <-]. right.
    unfold MediaPlayer.pause. unfold_method. cbn.
    destruct playing; cbn; split; reflexivity.
  - rewrite stop_video_loaded. intros [= <-]. right. split; reflexivity.
  - rewrite reset_video_loaded. intros [= <-]. left. reflexivity.
  - rewrite set_speed_state. intros [= <-]. right.
    unfold MediaPlayer.set_speed. unfold_method.
    destruct (MediaPlayer.contains MediaPlayer.VALID_SPEEDS s);
      cbn; split; reflexivity.
  - rewrite get_status_state. intros [= <-]. right. split; reflexivity.
Qed.

(** The player a load installs is at frame 0. *)
Lemma load_from_nothing (host : Host) (c : call) (svc : VideoService.state)
    (p' : MediaPlayer.state) :
  VideoService.media_player svc = None ->
  VideoService.media_player (snd (dispatch host c svc)) = Some p' ->
  MediaPlayer.current_frame p' = 0.
Proof.
  intros Hnone.
  destruct (is_load c) eqn:Hc.
  - destruct c as [path | | | | | | ]; try discriminate.
    cbn [dispatch]. unfold Routes.load_video.
    destruct (os_path_exists host path) eqn:Hexists.
    + rewrite (load_video_existing host path _ Hexists).
      destruct (isOpened (cv2_VideoCapture host path)) eqn:Hopen.
      * rewrite (init_opened host path Hopen).
        destruct (int_of_float _); cbn [snd]; [ | congruence ].
        intros [= <-]. reflexivity.
      * rewrite (init_not_opened host path Hopen). cbn [snd]. congruence.
    + rewrite (load_video_not_found host path _ Hexists). cbn [snd].
      congruence.
  - rewrite (dispatch_unloaded host c svc Hnone Hc). cbn [snd]. congruence.
Qed.

Lemma step_ok (ev : event) (svc : VideoService.state) :
  as_cpython ev -> service_ok svc -> service_ok (step ev svc).
Proof.
  intros Hev Hok. destruct ev as [host c | pass]; cbn [step as_cpython] in *.
  - assert (Hwf : service_well_formed (snd (dispatch host c svc))).
    { apply dispatch_well_formed. intros p Hp. apply (Hok p Hp). }
    intros p' Hp'. specialize (Hwf p' Hp').
    split; [ exact Hwf | ].
    destruct (VideoService.media_player svc) as [p | ] eqn:Hp.
    + destruct (Hok p Hp) as (_ & Hframe & Hrate).
      destruct (dispatch_frames host c svc p p' Hp Hp') as [-> | [-> ->]];
        [ split; [ lia | left; reflexivity ] | split; assumption ].
    + rewrite (load_from_nothing host c svc p' Hp Hp').
      split; [ lia | left; reflexivity ].
  - destruct (VideoService.media_player svc) as [p | ] eqn:Hp;
      [ | exact Hok ].
    intros p' [= <-]. apply worker_pass_ok; [ exact Hev | ].
    apply Hok. exact Hp.
Qed.

Lemma run_ok (events : list event) (svc : VideoService.state) :
  Forall as_cpython events -> service_ok svc -> service_ok (run events svc).
Proof.
  revert svc. induction events as [ | ev rest IH]; intros svc Hall Hok.
  - exact Hok.
  - inversion Hall as [ | ? ? Hev Hrest]; subst.
    cbn [run fold_left]. apply IH; [ exact Hrest | ].
    apply step_ok; assumption.
Qed.

Lemma fresh_service_ok : service_ok Routes.video_service.
Proof. intros p Hp. discriminate. Qed.

Lemma timestamp_returns_ok (p : MediaPlayer.state) :
  counted_frames_ok p -> MediaPlayer.current_frame p < 2 ^ 63 ->
  exists ts, MediaPlayer._get_timestamp p = (Returns ts, p).
Proof.
  intros (_ & Hframe & [Hzero | Hrate]) Hsmall.
  - eexists. apply timestamp_at_frame_0. exact Hzero.
  - apply timestamp_returns; [ lia | exact Hrate ].
Qed.

Lemma timed_pass_sleeps : sleeps_as_cpython timed_pass.
Proof.
  intros delay. cbn [sleep timed_pass].
  destruct (PyFloat.leb delay sleep_limit); [ reflexivity | ].
  rewrite andb_false_r. discriminate.
Qed.

Lemma example_run_as_cpython : Forall as_cpython example_run.
Proof. repeat constructor; exact timed_pass_sleeps. Qed.

(** The status after [example_run]: three frames at 25 frames a second
    are 120 ms. *)
Example status_after_three_frames :
  VideoService.get_status (run example_run Routes.video_service)
  = (Returns [ ("is_playing", VBool true);
               ("is_paused", VBool false);
               ("current_frame", VInt 3);
               ("total_frames", VInt 900);
               ("speed", VFloat speed_1_0);
               ("timestamp", VStr "00:00:120");
               ("video_path", VStr "clip.mp4");
               ("fps", VFloat (PyFloat.of_Z 25));
               ("loaded", VBool true) ],
     {| VideoService.media_player := Some example_run_player |}).
Proof. vm_compute. reflexivity. Qed.

(** At the smallest positive frame rate the frame delay is infinite:
    [time.sleep] raises, the worker ends before it counts the frame, and
    the status is that of frame 0, with [is_playing] left set. *)
Example status_at_the_slowest_rate :
  fst (Worker._play_video [timed_pass]
         (snd (MediaPlayer.play None
                 (loaded_player "clip.mp4"
                    (cv2_VideoCapture slow_host "clip.mp4") 900))))
  = Raises (OverflowError "timestamp too large to convert to C _PyTime_t")
  /\ fst (VideoService.get_status (run slow_run Routes.video_service))
     = Returns [ ("is_playing", VBool true);
                 ("is_paused", VBool false);
                 ("current_frame", VInt 0);
                 ("total_frames", VInt 900);
                 ("speed", VFloat speed_1_0);
                 ("timestamp", VStr "00:00:000");
                 ("video_path", VStr "clip.mp4");
                 ("fps", VFloat (S754_finite false 1 (-1074)));
                 ("loaded", VBool true) ].
Proof. split; vm_compute; reflexivity. Qed.

(** On the states of a run [get_status] returns. *)
Lemma get_status_returns_on_run (events : list event) (p : MediaPlayer.state) :
  Forall as_cpython events ->
  VideoService.media_player (run events Routes.video_service) = Some p ->
  MediaPlayer.current_frame p < 2 ^ 63 ->
  exists ts,
    VideoService.get_status (run events Routes.video_service)
    = (Returns (status_fields p ts ++ [ ("loaded", VBool true) ]),
       run events Routes.video_service).
Proof.
  intros Hall Hp Hsmall.
  pose proof (run_ok events Routes.video_service Hall fresh_service_ok p Hp)
    as Hok.
  destruct (timestamp_returns_ok p Hok Hsmall) as [ts Hts].
  exists ts. rewrite (service_eta _ p Hp), get_status_loaded, Hts.
  reflexivity.
Qed.

(** ** Status *)

(** C5.  On every service state in which no video is loaded, [get_status]
    returns exactly [{"loaded": False}].  On every state in which a video
    is loaded, the dictionary [get_status] returns is the player's eight
    status fields followed by ["loaded": True]; the service is left as it
    is.  And [get_status] does return on the states a process reaches with
    a video loaded: after any run of calls and worker passes from the
    fresh service, on any hosts, in which [time.sleep] returns on no delay
    beyond [sleep_limit] (CPython's raises [OverflowError] far below it),
    as long as the frame counter is below 2^63, which takes 2^63 frames
    shown since the last load or reset. *)
Theorem get_status_returns_the_status :
  (forall svc,
      VideoService.media_player svc = None ->
      VideoService.get_status svc = (Returns [ ("loaded", VBool false) ], svc))
  /\ (forall svc p status,
         VideoService.media_player svc = Some p ->
         fst (VideoService.get_status svc) = Returns status ->
         exists ts,
           fst (MediaPlayer._get_timestamp p) = Returns ts
           /\ status
              = [ ("is_playing", VBool (MediaPlayer.is_playing p));
                  ("is_paused", VBool (MediaPlayer.is_paused p));
                  ("current_frame", VInt (MediaPlayer.current_frame p));
                  ("total_frames", VInt (MediaPlayer.total_frames p));
                  ("speed", VFloat (MediaPlayer.speed p));
                  ("timestamp", VStr ts);
                  ("video_path", VStr (MediaPlayer.video_path p));
                  ("fps", VFloat (MediaPlayer.fps p));
                  ("loaded", VBool true) ]
           /\ snd (VideoService.get_status svc) = svc)
  /\ (forall events p,
         Forall as_cpython events ->
         VideoService.media_player (run events Routes.video_service) = Some p ->
         MediaPlayer.current_frame p < 2 ^ 63 ->
         exists status,
           fst (VideoService.get_status (run events Routes.video_service))
           = Returns status).
Proof.
  split; [ | split ].
  - intros svc Hnone. unfold VideoService.get_status. unfold_method.
    rewrite Hnone. reflexivity.
  - intros svc p status Hp. rewrite (service_eta svc p Hp), get_status_loaded.
    destruct (MediaPlayer._get_timestamp p) as [[ts | e] p'];
      cbn [fst snd]; [ | discriminate ].
    intros [= <-]. exists ts. repeat split.
  - intros events p Hall Hp Hsmall.
    destruct (get_status_returns_on_run events p Hall Hp Hsmall) as [ts ->].
    eexists. reflexivity.
Qed.

Lemma get_status_returns_the_status_witness :
  VideoService.get_status VideoService.__init__
  = (Returns [ ("loaded", VBool false) ], VideoService.__init__)
  /\ (exists ts,
         fst (MediaPlayer._get_timestamp example_player) = Returns ts
         /\ [ ("is_playing", VBool false);
              ("is_paused", VBool false);
              ("current_frame", VInt 0);
              ("total_frames", VInt 900);
              ("speed", VFloat speed_1_0);
              ("timestamp", VStr "00:00:000");
              ("video_path", VStr "clip.mp4");
              ("fps", VFloat (PyFloat.of_Z 25));
              ("loaded", VBool true) ]
            = [ ("is_playing", VBool (MediaPlayer.is_playing example_player));
                ("is_paused", VBool (MediaPlayer.is_paused example_player));
                ("current_frame",
                 VInt (MediaPlayer.current_frame example_player));
                ("total_frames",
                 VInt (MediaPlayer.total_frames example_player));
                ("speed", VFloat (MediaPlayer.speed example_player));
                ("timestamp", VStr ts);
                ("video_path", VStr (MediaPlayer.video_path example_player));
                ("fps", VFloat (MediaPlayer.fps example_player));
                ("loaded", VBool true) ]
         /\ snd (VideoService.get_status example_service) = example_service)
  /\ (exists status,
         fst (VideoService.get_status (run example_run Routes.video_service))
         = Returns status).
Proof.
  split; [ | split ].
  - apply (proj1 get_status_returns_the_status). reflexivity.
  - apply (proj1 (proj2 get_status_returns_the_status)
             example_service example_player).
    + reflexivity.
    + vm_compute. reflexivity.
  - apply (proj2 (proj2 get_status_returns_the_status)
             example_run example_run_player).
    + exact example_run_as_cpython.
    + vm_compute. reflexivity.
    + vm_compute. reflexivity.
Defined.

(** ** Failures *)


